(** * AI Investment Advisor: the analysis core and the account store

    A shallow embedding of [financial_analyzer.py] (class [FinancialAnalyzer])
    and of [auth_manager.py] (class [AuthManager]), followed by the properties
    of the specification that concern them.  The embedding goes on to the
    session table of [AuthManager] and to the parts of [app.py], [demo.py],
    [visualizations.py] and [pdf_generator.py] that consume what the analyzer
    returns, with further properties of the code at the end.

    Python [float] is IEEE 754 binary64, which is what Rocq's primitive [float]
    is: every literal below denotes the same double as the literal in the
    source, and [+], [-], [*], [/] round as they do in CPython.  Python [int]
    is [Z], [str] is [string], a [dict] is an insertion-ordered association
    list with unique keys, and a Python exception is the [Raise] case of the
    result type [res]. *)

From Stdlib Require Import ZArith List String Bool Floats Lia.
From Stdlib Require Import Ascii Permutation Sorted.
Import ListNotations.

Set Warnings "-inexact-float".

Local Open Scope string_scope.
Local Open Scope Z_scope.

(** ** The Python runtime the two modules rely on *)

Module Py.

(** The exceptions the modelled code can meet. *)
Inductive exn : Type :=
| ZeroDivisionError
| KeyError (key : string)
| OverflowError
| ValueError
| IntegrityError (msg : string)
| ExternalError (msg : string).

(** [str(e)] as the [except] clauses format it. *)
Definition str_of_exn (e : exn) : string :=
  match e with
  | ZeroDivisionError => "float division by zero"
  | KeyError k => k
  | OverflowError => "cannot convert float infinity to integer"
  | ValueError => "cannot convert float NaN to integer"
  | IntegrityError m => m
  | ExternalError m => m
  end.

(** A computation that returns or raises. *)
Inductive res (A : Type) : Type :=
| Ok (a : A)
| Raise (e : exn).
Arguments Ok {A} a.
Arguments Raise {A} e.

Definition bind {A B : Type} (c : res A) (k : A -> res B) : res B :=
  match c with
  | Ok a => k a
  | Raise e => Raise e
  end.

Definition raises {A : Type} (c : res A) : bool :=
  match c with
  | Ok _ => false
  | Raise _ => true
  end.

(** [min(a, b)] and [max(a, b)] on floats: the first argument is kept unless
    the second is strictly smaller (resp. strictly larger). *)
Definition min (a b : float) : float := if (b <? a)%float then b else a.
Definition max (a b : float) : float := if (a <? b)%float then b else a.

(** [a / b] on Python floats raises on a zero divisor (of either sign). *)
Definition truediv (a b : float) : res float :=
  if (b =? 0)%float then Raise ZeroDivisionError else Ok (a / b)%float.

(** [sum(xs)] on floats.  Up to CPython 3.11 the items are added from left
    to right, starting at [0]; from 3.12 on the same loop also carries
    Neumaier's compensation term and adds it at the end.  Both are modelled,
    and the interpreter in use picks one. *)
Inductive sum_impl : Type := LeftToRight | Compensated.

Class Interpreter : Type := { float_sum : sum_impl }.

Definition sum_left (xs : list float) : float :=
  fold_left PrimFloat.add xs 0%float.

Definition neumaier_step (st : float * float) (x : float) : float * float :=
  let '(f, c) := st in
  let t := (f + x)%float in
  if (abs x <=? abs f)%float
  then (t, (c + ((f - t) + x))%float)
  else (t, (c + ((x - t) + f))%float).

Definition is_finite (x : float) : bool := (abs x <? infinity)%float.

Definition sum_compensated (xs : list float) : float :=
  let '(f, c) := fold_left neumaier_step xs (0%float, 0%float) in
  if (negb (c =? 0)%float && is_finite c)%bool then (f + c)%float else f.

Definition sum {py : Interpreter} (xs : list float) : float :=
  match float_sum with
  | LeftToRight => sum_left xs
  | Compensated => sum_compensated xs
  end.

(** Python numbers as the quote records hold them. *)
Inductive num : Type :=
| Int (z : Z)
| Float (f : float).

(** The double nearest to an integer (ties to even), as [float(n)] and the
    conversion of an integer feature by [np.array] compute it; an integer
    beyond the range of the doubles, which [float(n)] refuses, goes to an
    infinity. *)
Definition float_of_int (n : Z) : float :=
  SF2Prim (binary_normalize prec emax n 0 false).

(** [pd.isna(x)] on a float. *)
Definition isna (x : float) : bool := negb (x =? x)%float.

(** *** Dictionaries *)

Definition dict (V : Type) : Type := list (string * V).

Fixpoint get {V : Type} (d : dict V) (k : string) : option V :=
  match d with
  | [] => None
  | (k', v) :: d' => if String.eqb k' k then Some v else get d' k
  end.

(** [d[k]] *)
Definition getitem {V : Type} (d : dict V) (k : string) : res V :=
  match get d k with
  | Some v => Ok v
  | None => Raise (KeyError k)
  end.

(** [d[k] = v]: an existing key keeps its position, a new one goes last. *)
Fixpoint set {V : Type} (d : dict V) (k : string) (v : V) : dict V :=
  match d with
  | [] => [(k, v)]
  | (k', v') :: d' =>
      if String.eqb k' k then (k', v) :: d' else (k', v') :: set d' k v
  end.

Definition keys {V : Type} (d : dict V) : list string := map fst d.
Definition values {V : Type} (d : dict V) : list V := map snd d.
Definition contains {V : Type} (d : dict V) (k : string) : bool :=
  match get d k with
  | Some _ => true
  | None => false
  end.

(** The dictionary a literal [{k1: v1, ..., kn: vn}] builds. *)
Definition literal {V : Type} (kvs : list (string * V)) : dict V :=
  fold_left (fun d kv => set d (fst kv) (snd kv)) kvs [].

(** The invariant of every Python dictionary. *)
Definition wf {V : Type} (d : dict V) : Prop := NoDup (keys d).

End Py.

Import Py.

Declare Scope py_scope.
Delimit Scope py_scope with py.
Notation "x <- c ;; k" := (Py.bind c (fun x => k))
  (at level 61, c at next level, right associativity) : py_scope.
Local Open Scope py_scope.

(** ** [financial_analyzer.py] *)

(** The libraries [FinancialAnalyzer] calls into: the two fitted forests of
    scikit-learn, the quote provider, and the pandas and built-in helpers used
    on a price history. *)

Record Bar : Type := mkBar { Close : float; Volume : float }.

Class Externals : Type := {
  (** [self.risk_model.predict(features)[0]] *)
  risk_model_predict : list float -> float;
  (** [self.return_model.predict(features)[0]] *)
  return_model_predict : list float -> float;
  (** [yf.Ticker(symbol).history(period=period)], rows oldest first *)
  ticker_history : string -> string -> res (list Bar);
  (** [round(x, 2)] *)
  round2 : float -> float;
  (** [int(x)] on a float: raises on an infinity or a NaN *)
  int_of_float : float -> res Z;
  (** [hist['Close'].pct_change().iloc[-1]] *)
  pct_change_last : list Bar -> float;
  (** [hist['Close'].max()] and [hist['Close'].min()] *)
  close_max : list Bar -> float;
  close_min : list Bar -> float;
  (** the format [.1%] of the summary's f-string *)
  format_percent1 : float -> string
}.

Module FinancialAnalyzer.

(** [user_data]: the age is an integer; the currency fields are numbers that
    Python converts to float before it multiplies them by a float. *)
Record UserData : Type := mkUserData {
  age : Z;
  income : float;
  expenses : float;
  savings : float;
  risk_tolerance : float
}.

Record AnalysisResult : Type := mkAnalysisResult {
  risk_score : float;
  risk_category : string;
  expected_return : float;
  features : list float
}.

Section Analyzer.
Context {ext : Externals}.

Definition analyze_user_profile (user_data : UserData) : AnalysisResult :=
  let features :=
    [ float_of_int (age user_data);
      income user_data;
      expenses user_data;
      savings user_data;
      risk_tolerance user_data ] in
  let risk_score := risk_model_predict features in
  let expected_return := return_model_predict features in
  let risk_category :=
    if (risk_score <? 0.33)%float then "low"
    else if (risk_score <? 0.66)%float then "medium"
    else "high" in
  {| risk_score := risk_score;
     risk_category := risk_category;
     expected_return := expected_return;
     features := features |}.

End Analyzer.

(** The base allocation chosen by the risk category (lines 102-130). *)
Definition base_allocation (risk_category : string) : dict float :=
  if String.eqb risk_category "low" then
    literal [ ("fixed_deposits", 0.4%float);
              ("government_bonds", 0.3%float);
              ("money_market_funds", 0.2%float);
              ("mutual_funds", 0.1%float);
              ("stocks", 0.0%float);
              ("crypto", 0.0%float) ]
  else if String.eqb risk_category "medium" then
    literal [ ("fixed_deposits", 0.2%float);
              ("government_bonds", 0.2%float);
              ("money_market_funds", 0.1%float);
              ("mutual_funds", 0.3%float);
              ("etfs", 0.15%float);
              ("stocks", 0.05%float);
              ("crypto", 0.0%float) ]
  else
    literal [ ("fixed_deposits", 0.1%float);
              ("government_bonds", 0.1%float);
              ("money_market_funds", 0.05%float);
              ("mutual_funds", 0.25%float);
              ("etfs", 0.2%float);
              ("stocks", 0.25%float);
              ("crypto", 0.05%float) ].

(** The adjustment by age (lines 132-141). *)
Definition adjust_for_age (age : Z) (allocation : dict float)
  : res (dict float) :=
  if age <? 35 then
    stocks <- getitem allocation "stocks" ;;
    let allocation := set allocation "stocks" (min (stocks + 0.1)%float 0.4%float) in
    crypto <- getitem allocation "crypto" ;;
    let allocation := set allocation "crypto" (min (crypto + 0.05)%float 0.15%float) in
    Ok allocation
  else if age >? 60 then
    fixed_deposits <- getitem allocation "fixed_deposits" ;;
    let allocation :=
      set allocation "fixed_deposits" (min (fixed_deposits + 0.2)%float 0.6%float) in
    government_bonds <- getitem allocation "government_bonds" ;;
    let allocation :=
      set allocation "government_bonds" (min (government_bonds + 0.1)%float 0.4%float) in
    stocks <- getitem allocation "stocks" ;;
    let allocation := set allocation "stocks" (max (stocks - 0.1)%float 0.0%float) in
    Ok allocation
  else Ok allocation.

(** [{k: v/total for k, v in allocation.items()}] *)
Fixpoint divide_items (items : list (string * float)) (total : float)
  (acc : dict float) : res (dict float) :=
  match items with
  | [] => Ok acc
  | (k, v) :: rest =>
      q <- truediv v total ;;
      divide_items rest total (set acc k q)
  end.

(** The renormalization (lines 143-145). *)
Definition normalize {py : Interpreter} (allocation : dict float) : res (dict float) :=
  let total := sum (values allocation) in
  divide_items allocation total [].

(** The allocation as it stands before line 143. *)
Definition adjusted_allocation (user_data : UserData)
  (analysis_result : AnalysisResult) : res (dict float) :=
  adjust_for_age (age user_data)
    (base_allocation (risk_category analysis_result)).

Definition calculate_investment_allocation {py : Interpreter} (user_data : UserData)
  (analysis_result : AnalysisResult) : res (dict float) :=
  allocation <- adjusted_allocation user_data analysis_result ;;
  normalize allocation.

(** *** The market data gateway (lines 149-181) *)

Record Quote : Type := mkQuote {
  current_price : num;
  change_percent : num;
  volume : num;
  high_52w : num;
  low_52w : num
}.

(** The record of the [except] branch. *)
Definition zero_quote : Quote :=
  {| current_price := Int 0;
     change_percent := Int 0;
     volume := Int 0;
     high_52w := Int 0;
     low_52w := Int 0 |}.

(** [s.iloc[-1]] *)
Definition iloc_last {A : Type} (rows : list A) : option A :=
  match rev rows with
  | [] => None
  | r :: _ => Some r
  end.

Section Gateway.
Context {ext : Externals}.

(** [float(x)] *)
Definition to_float (x : num) : float :=
  match x with
  | Int z => float_of_int z
  | Float f => f
  end.

(** The [try] block for one symbol up to the assignment into
    [market_data]: the record to store, nothing when the history is empty,
    or the exception that leaves the block. *)
Definition try_quote (symbol period : string) : res (option Quote) :=
  hist <- ticker_history symbol period ;;
  match iloc_last hist with
  | None => Ok None
  | Some last =>
      let current_price := Close last in
      let change :=
        if (1 <? Z.of_nat (List.length hist))
        then Float (pct_change_last hist * 100)%float
        else Int 0 in
      vol <- (if isna (Volume last) then Ok 0
              else int_of_float (Volume last)) ;;
      Ok (Some
            {| current_price := Float (round2 current_price);
               change_percent := Float (round2 (to_float change));
               volume := Int vol;
               high_52w := Float (round2 (close_max hist));
               low_52w := Float (round2 (close_min hist)) |})
  end.

(** One turn of the [for] loop: [try], the assignment, and
    [except Exception]. *)
Definition fetch_symbol (market_data : dict Quote) (symbol period : string)
  : dict Quote :=
  match try_quote symbol period with
  | Ok (Some quote) => set market_data symbol quote
  | Ok None => market_data
  | Raise _ => set market_data symbol zero_quote
  end.

Fixpoint fetch_all (symbols : list string) (period : string)
  (market_data : dict Quote) : dict Quote :=
  match symbols with
  | [] => market_data
  | symbol :: rest =>
      fetch_all rest period (fetch_symbol market_data symbol period)
  end.

Definition get_market_data (symbols : list string) (period : string)
  : dict Quote :=
  fetch_all symbols period [].

(** *** The advice composer (lines 183-234) *)

Record BreakdownEntry : Type := mkEntry {
  percentage : float;
  amount : float;
  description : string
}.

Record Advice : Type := mkAdvice {
  summary : string;
  recommendations : list string;
  investment_breakdown : dict BreakdownEntry;
  market_insights : dict Quote
}.

Definition descriptions : dict string :=
  literal
    [ ("fixed_deposits", "Low-risk, guaranteed returns from banks");
      ("government_bonds", "Very safe, backed by government");
      ("money_market_funds", "Short-term, low-risk investments");
      ("mutual_funds", "Diversified portfolio managed by professionals");
      ("etfs", "Exchange-traded funds tracking market indices");
      ("stocks", "Individual company shares with higher volatility");
      ("crypto", "Cryptocurrency investments with high volatility") ].

Definition _get_category_description (category : string) : string :=
  match get descriptions category with
  | Some d => d
  | None => "Investment category"
  end.

(** Line 191. *)
Definition investable_amount (user_data : UserData) : float :=
  (savings user_data * 0.8)%float.

(** One turn of the loop of lines 212-219. *)
Definition add_breakdown (investable_amount : float)
  (breakdown : dict BreakdownEntry) (item : string * float)
  : dict BreakdownEntry :=
  let '(category, percentage) := item in
  if (0 <? percentage)%float then
    set breakdown category
      {| percentage := (percentage * 100)%float;
         amount := (investable_amount * percentage)%float;
         description := _get_category_description category |}
  else breakdown.

Definition generate_advice_report (user_data : UserData)
  (analysis_result : AnalysisResult) (allocation : dict float)
  (market_data : dict Quote) : Advice :=
  let risk_category := risk_category analysis_result in
  let expected_return := expected_return analysis_result in
  let investable_amount := investable_amount user_data in
  let summary :=
    "Based on your profile, you have a " ++ risk_category
    ++ " risk tolerance with an expected annual return of "
    ++ format_percent1 expected_return ++ "." in
  let recommendations :=
    if String.eqb risk_category "low" then
      [ "Focus on capital preservation with fixed deposits and government bonds.";
        "Consider a small allocation to mutual funds for growth." ]
    else if String.eqb risk_category "medium" then
      [ "Balance between growth and stability with mutual funds and ETFs.";
        "Include some individual stocks for potential higher returns." ]
    else
      [ "Embrace growth opportunities with higher stock allocation.";
        "Consider crypto for diversification, but limit exposure." ] in
  {| summary := summary;
     recommendations := recommendations;
     investment_breakdown :=
       fold_left (add_breakdown investable_amount) allocation [];
     market_insights := market_data |}.

End Gateway.

End FinancialAnalyzer.

(** ** [auth_manager.py] *)

(** [hashlib.sha256(s.encode()).hexdigest()] *)
Class Hashlib : Type := { sha256_hexdigest : string -> string }.

Module AuthManager.

(** A row of the table [users]; timestamps are seconds on some clock. *)
Record UserRow : Type := mkUserRow {
  id : Z;
  username : string;
  password_hash : string;
  email : option string;
  created_at : Z;
  last_login : option Z
}.

(** The database file: the rows of [users] in rowid order and the counter
    that [AUTOINCREMENT] keeps in [sqlite_sequence]. *)
Record Db : Type := mkDb {
  users : list UserRow;
  users_seq : Z
}.

(** The state [_init_database] creates on a fresh file. *)
Definition empty_db : Db := {| users := []; users_seq := 0 |}.

(** [SELECT id FROM users WHERE username = ?] followed by [fetchone()] *)
Definition select_by_username (db : Db) (u : string) : option UserRow :=
  find (fun r => String.eqb (username r) u) (users db).

(** [SELECT id, username, email FROM users WHERE username = ? AND
    password_hash = ?] followed by [fetchone()] *)
Definition select_by_credentials (db : Db) (u h : string) : option UserRow :=
  find (fun r => String.eqb (username r) u && String.eqb (password_hash r) h)%bool
    (users db).

(** The rowid [AUTOINCREMENT] hands out: above every rowid in use or used. *)
Definition next_id (db : Db) : Z :=
  fold_right Z.max (users_seq db) (map id (users db)) + 1.

(** [INSERT INTO users (username, password_hash, email) VALUES (?, ?, ?)]
    under the constraint [username TEXT UNIQUE]. *)
Definition insert_user (db : Db) (now : Z) (u h : string) (e : option string)
  : res Db :=
  match select_by_username db u with
  | Some _ => Raise (IntegrityError "UNIQUE constraint failed: users.username")
  | None =>
      let i := next_id db in
      Ok {| users := users db ++
              [ {| id := i; username := u; password_hash := h; email := e;
                   created_at := now; last_login := None |} ];
            users_seq := i |}
  end.

(** [UPDATE users SET last_login = CURRENT_TIMESTAMP WHERE id = ?] *)
Definition update_last_login (db : Db) (now : Z) (i : Z) : Db :=
  {| users :=
       map (fun r =>
              if Z.eqb (id r) i then
                {| id := id r; username := username r;
                   password_hash := password_hash r; email := email r;
                   created_at := created_at r; last_login := Some now |}
              else r)
         (users db);
     users_seq := users_seq db |}.

(** The second component of what [authenticate_user] returns. *)
Inductive payload : Type :=
| User (id : Z) (username : string) (email : option string)
| Message (text : string).

Section Auth.
Context {hl : Hashlib}.

Definition hash_password (password : string) : string :=
  sha256_hexdigest password.

(** [register_user]: the database after the call and the returned pair.
The connection to the database file is taken to open and to commit; the
only exception the [try] block can then meet is the one of the insertion. *)
Definition register_user (db : Db) (now : Z)
  (username password : string) (email : option string)
  : Db * (bool * string) :=
  match select_by_username db username with
  | Some _ => (db, (false, "Username already exists"))
  | None =>
      let password_hash := hash_password password in
      match insert_user db now username password_hash email with
      | Ok db' => (db', (true, "User registered successfully"))
      | Raise e => (db, (false, "Registration failed: " ++ str_of_exn e))
      end
  end.

(** [authenticate_user]: the database after the call and the returned
    pair. *)
Definition authenticate_user (db : Db) (now : Z)
  (username password : string) : Db * (bool * payload) :=
  let password_hash := hash_password password in
  match select_by_credentials db username password_hash with
  | Some user =>
      (update_last_login db now (id user),
       (true, User (id user) (AuthManager.username user) (email user)))
  | None => (db, (false, Message "Invalid username or password"))
  end.

End Auth.

End AuthManager.

(** ** The specification's vocabulary *)

Module Spec.

(** [x] equals [y] to within the tolerance [tol]. *)
Definition close_to (x y tol : float) : bool :=
  (abs (x - y) <=? tol)%float.

(** "increase by [delta] (cap [cap])" *)
Definition increased_capped (delta cap v : float) : float :=
  let w := (v + delta)%float in
  if (cap <? w)%float then cap else w.

(** "decrease by [delta] (floor [floor])" *)
Definition decreased_floored (delta floor v : float) : float :=
  let w := (v - delta)%float in
  if (w <? floor)%float then floor else w.

(** The table with the entry of [key] changed by [f], every other entry and
    the order of the entries as they were. *)
Definition update_entry (key : string) (f : float -> float)
  (table : dict float) : dict float :=
  map (fun kv => if String.eqb (fst kv) key then (fst kv, f (snd kv)) else kv)
    table.

(** The entries of a table that are not zero. *)
Definition nonzero_entries (table : dict float) : dict float :=
  filter (fun kv => negb (snd kv =? 0)%float) table.

(** Each fraction divided by [total]. *)
Definition scaled_by (total : float) (table : dict float) : dict float :=
  map (fun kv => (fst kv, (snd kv / total)%float)) table.

End Spec.

(** ** Sample environments *)

Module Sample.

Definition py311 : Interpreter := {| float_sum := LeftToRight |}.
Definition py312 : Interpreter := {| float_sum := Compensated |}.

Definition bars : list Bar :=
  [ {| Close := 101.5%float; Volume := 1200%float |};
    {| Close := 103.25%float; Volume := 900%float |} ].

(** A provider that refuses ["FAIL"], knows nothing about ["NODATA"] and has
    two bars for every other symbol; forests that answer with a fixed
    score. *)
Definition externals (score : float) : Externals :=
  {| risk_model_predict := fun _ => score;
     return_model_predict := fun _ => (0.03 + score * 0.12)%float;
     ticker_history := fun symbol _ =>
       if String.eqb symbol "FAIL" then Raise (ExternalError "connection reset")
       else if String.eqb symbol "NODATA" then Ok []
       else Ok bars;
     round2 := fun x => x;
     int_of_float := fun x =>
       if isna x then Raise ValueError
       else if is_finite x then Ok 0 else Raise OverflowError;
     pct_change_last := fun _ => 0%float;
     close_max := fun _ => 103.25%float;
     close_min := fun _ => 101.5%float;
     format_percent1 := fun _ => "0.0%" |}.

(** A stand-in for the digest: the password in reverse. *)
Fixpoint reverse (s : string) : string :=
  match s with
  | EmptyString => EmptyString
  | String c s' => reverse s' ++ String c EmptyString
  end.

Definition hashlib : Hashlib := {| sha256_hexdigest := reverse |}.

Definition profile (age : Z) (savings : float) : FinancialAnalyzer.UserData :=
  {| FinancialAnalyzer.age := age;
     FinancialAnalyzer.income := 50000%float;
     FinancialAnalyzer.expenses := 30000%float;
     FinancialAnalyzer.savings := savings;
     FinancialAnalyzer.risk_tolerance := 0.5%float |}.

Definition analysis (category : string) : FinancialAnalyzer.AnalysisResult :=
  {| FinancialAnalyzer.risk_score := 0.5%float;
     FinancialAnalyzer.risk_category := category;
     FinancialAnalyzer.expected_return := 0.09%float;
     FinancialAnalyzer.features := [] |}.

End Sample.

(** ** The session table of [auth_manager.py] *)

(** [json.dumps] and [json.loads] on the bundle a session holds. *)
Class Json (Data : Type) : Type := {
  json_dumps : Data -> res string;
  json_loads : string -> res Data
}.

Module AuthSessions.

(** A row of the table [sessions]. *)
Record SessionRow : Type := mkSessionRow {
  id : Z;
  user_id : Z;
  session_data : string;
  created_at : Z
}.

(** The rows of [sessions] in rowid order and the counter [AUTOINCREMENT]
    keeps for the table. *)
Record Table : Type := mkTable {
  sessions : list SessionRow;
  sessions_seq : Z
}.

Definition empty_table : Table := {| sessions := []; sessions_seq := 0 |}.

Definition next_id (t : Table) : Z :=
  fold_right Z.max (sessions_seq t) (map id (sessions t)) + 1.

(** [ORDER BY created_at DESC] as the database engine carries it out. *)
Class QueryEngine : Type := {
  order_by_created_at_desc : list SessionRow -> list SessionRow
}.

(** What SQL promises of it: the rows come back, all of them, latest first;
    the order of rows with equal timestamps is the engine's choice. *)
Definition lawful (qe : QueryEngine) : Prop :=
  (forall rows, Permutation rows (order_by_created_at_desc rows)) /\
  (forall rows,
      StronglySorted (fun r1 r2 => created_at r2 <= created_at r1)
        (order_by_created_at_desc rows)).

(** [WHERE user_id = ?] *)
Definition owned_by (user_id' : Z) (r : SessionRow) : bool :=
  Z.eqb (user_id r) user_id'.

Section Sessions.
Context {Data : Type} {js : Json Data} {qe : QueryEngine}.

(** [save_session]: the table after the call and the returned flag. *)
Definition save_session (t : Table) (now : Z) (user_id : Z)
  (session_data : Data) : Table * bool :=
  match json_dumps session_data with
  | Ok session_json =>
      ({| sessions := sessions t ++
            [ {| id := next_id t; user_id := user_id;
                 session_data := session_json; created_at := now |} ];
          sessions_seq := next_id t |},
       true)
  | Raise _ => (t, false)
  end.

(** [load_session]: [None] is Python's [None]. *)
Definition load_session (t : Table) (user_id : Z) : option Data :=
  match order_by_created_at_desc (filter (owned_by user_id) (sessions t)) with
  | [] => None
  | result :: _ =>
      match json_loads (session_data result) with
      | Ok data => Some data
      | Raise _ => None
      end
  end.

(** [get_user_sessions]: the tuples [(id, session_data, created_at)]. *)
Definition get_user_sessions (t : Table) (user_id : Z)
  : list (Z * string * Z) :=
  map (fun r => (id r, session_data r, created_at r))
    (order_by_created_at_desc (filter (owned_by user_id) (sessions t))).

(** [delete_session]: the table after the call and the returned flag. *)
Definition delete_session (t : Table) (session_id : Z) : Table * bool :=
  ({| sessions := filter (fun r => negb (Z.eqb (id r) session_id)) (sessions t);
      sessions_seq := sessions_seq t |},
   true).

(** A call on the session table, and the table a sequence of calls
    leaves. *)
Inductive call : Type :=
| Save (now : Z) (user_id : Z) (session_data : Data)
| Delete (session_id : Z).

Definition apply_call (t : Table) (c : call) : Table :=
  match c with
  | Save now user_id session_data =>
      fst (save_session t now user_id session_data)
  | Delete session_id => fst (delete_session t session_id)
  end.

Definition run_calls (calls : list call) : Table :=
  fold_left apply_call calls empty_table.

End Sessions.

End AuthSessions.

(** ** Sequences of requests on the account store *)

Module AuthTrace.

Section Trace.
Context {hl : Hashlib}.

Inductive request : Type :=
| Register (now : Z) (username password : string) (email : option string)
| Authenticate (now : Z) (username password : string).

Definition handle (db : AuthManager.Db) (r : request) : AuthManager.Db :=
  match r with
  | Register now username password email =>
      fst (AuthManager.register_user db now username password email)
  | Authenticate now username password =>
      fst (AuthManager.authenticate_user db now username password)
  end.

Definition run (requests : list request) : AuthManager.Db :=
  fold_left handle requests AuthManager.empty_db.

End Trace.

End AuthTrace.

(** ** The callers of the analyzer *)

Module App.

Section Pipeline.
Context {ext : Externals} {py : Interpreter}.


End Pipeline.

(** What a page or a report finds under a category: a fraction, as
    [calculate_investment_allocation] returns them, or an entry of an
    investment breakdown, as [generate_advice_report] builds them. *)
Inductive category_data : Type :=
| Fraction (x : float)
| Breakdown (e : FinancialAnalyzer.BreakdownEntry).

(** The session's [allocation_data] as the pages read it. *)
Definition plan_data (plan : dict float) : dict category_data :=
  map (fun kv => (fst kv, Fraction (snd kv))) plan.


(** The rows of the allocation table of [analysis_page] (app.py, lines
    320-329) before they are formatted: the entries that are dictionaries
    with a percentage above zero. *)
Definition allocation_table_rows (allocation_data : dict category_data)
  : list (string * FinancialAnalyzer.BreakdownEntry) :=
  flat_map
    (fun kv =>
       match snd kv with
       | Breakdown e =>
           if (0 <? FinancialAnalyzer.percentage e)%float
           then [(fst kv, e)] else []
       | Fraction _ => []
       end)
    allocation_data.

End App.

(** ** [visualizations.py] *)

(** [category.replace('_', ' ').title()] *)
Class Labels : Type := { category_label : string -> string }.

Module InvestmentVisualizer.

(** [self.colors] *)
Definition colors : dict string :=
  literal
    [ ("low_risk", "#2E8B57"); ("medium_risk", "#FF8C00");
      ("high_risk", "#DC143C"); ("fixed_deposits", "#4169E1");
      ("government_bonds", "#32CD32"); ("money_market_funds", "#20B2AA");
      ("mutual_funds", "#FF6347"); ("etfs", "#9370DB");
      ("stocks", "#FF1493"); ("crypto", "#FFD700") ].

(** [self.colors.get(category, '#808080')] *)
Definition color_of (category : string) : string :=
  match get colors category with
  | Some c => c
  | None => "#808080"
  end.

(** What [create_pie_chart] hands to the plotting library: a figure that
    carries one annotation, or the three parallel lists of a pie. *)
Inductive Chart : Type :=
| Annotation (text : string)
| Pie (labels : list string) (values : list float) (marker_colors : list string).

Section Charts.
Context {lb : Labels}.

(** One turn of the loop of lines 55-65 on the lists [categories],
    [percentages] and [colors]. *)
Definition add_slice (acc : list string * list float * list string)
  (item : string * App.category_data)
  : list string * list float * list string :=
  let '(categories, percentages, colors) := acc in
  let '(category, data) := item in
  match data with
  | App.Breakdown e =>
      if (0 <? FinancialAnalyzer.percentage e)%float then
        ((categories ++ [category_label category])%list,
         (percentages ++ [FinancialAnalyzer.percentage e])%list,
         (colors ++ [color_of category])%list)
      else acc
  | App.Fraction x =>
      if (0 <? x)%float then
        ((categories ++ [category_label category])%list,
         (percentages ++ [x])%list,
         (colors ++ [color_of category])%list)
      else acc
  end.

(** [create_pie_chart], up to the calls into the plotting library. *)
Definition create_pie_chart (allocation_data : dict App.category_data)
  : Chart :=
  match allocation_data with
  | [] => Annotation "No allocation data available"
  | _ =>
      let '(categories, percentages, colors) :=
        fold_left add_slice allocation_data ([], [], []) in
      match categories with
      | [] => Annotation "No valid allocation data"
      | _ => Pie categories percentages colors
      end
  end.

End Charts.

(** The x axis of [create_age_risk_analysis]. *)
Definition age_ranges : list string :=
  ["18-25"; "26-35"; "36-45"; "46-55"; "56-65"; "65+"].

Definition _get_age_range (age : Z) : string :=
  if age <=? 25 then "18-25"
  else if age <=? 35 then "26-35"
  else if age <=? 45 then "36-45"
  else if age <=? 55 then "46-55"
  else if age <=? 65 then "56-65"
  else "65+".

End InvestmentVisualizer.

(** ** The allocation tables of [pdf_generator.py] and of [demo.py] *)

Module Reports.

(** A step of a report: done, or left by the [TypeError] Python raises when
    a float is subscripted. *)
Inductive outcome (A : Type) : Type :=
| Done (a : A)
| TypeError (msg : string).
Arguments Done {A} a.
Arguments TypeError {A} msg.

(** [data['percentage']] and the other subscripts of an entry. *)
Definition entry_of (data : App.category_data)
  : outcome FinancialAnalyzer.BreakdownEntry :=
  match data with
  | App.Breakdown e => Done e
  | App.Fraction _ => TypeError "'float' object is not subscriptable"
  end.

(** The rows of the allocation table of [generate_investment_report]
    (lines 110-116) before they are formatted. *)
Fixpoint investment_report_rows (items : dict App.category_data)
  : outcome (list (string * FinancialAnalyzer.BreakdownEntry)) :=
  match items with
  | [] => Done []
  | (category, data) :: rest =>
      match entry_of data with
      | TypeError msg => TypeError msg
      | Done e =>
          match investment_report_rows rest with
          | TypeError msg => TypeError msg
          | Done rows => Done ((category, e) :: rows)
          end
      end
  end.

(** [sorted(..., key=lambda x: x[1]['percentage'], reverse=True)] once the
    keys are there: the sort is stable, so rows of equal percentage keep
    their order.  (On keys that include a NaN Python's result depends on its
    sorting algorithm; no percentage of this application is one.) *)
Fixpoint insert_by_percentage
  (row : string * FinancialAnalyzer.BreakdownEntry)
  (sorted : list (string * FinancialAnalyzer.BreakdownEntry))
  : list (string * FinancialAnalyzer.BreakdownEntry) :=
  match sorted with
  | [] => [row]
  | r :: rest =>
      if (FinancialAnalyzer.percentage (snd row)
          <? FinancialAnalyzer.percentage (snd r))%float
      then r :: insert_by_percentage row rest
      else row :: sorted
  end.

Definition sort_by_percentage
  (rows : list (string * FinancialAnalyzer.BreakdownEntry))
  : list (string * FinancialAnalyzer.BreakdownEntry) :=
  fold_right insert_by_percentage [] rows.

(** The top three rows of [generate_simple_report] (lines 220-226) before
    they are formatted. *)
Definition simple_report_rows (allocation_data : dict App.category_data)
  : outcome (list (string * FinancialAnalyzer.BreakdownEntry)) :=
  match investment_report_rows allocation_data with
  | TypeError msg => TypeError msg
  | Done rows => Done (firstn 3 (sort_by_percentage rows))
  end.

(** The categories the loop of [run_demo] prints (demo.py, lines 73-75). *)
Fixpoint demo_printed (items : dict App.category_data)
  : outcome (list (string * FinancialAnalyzer.BreakdownEntry)) :=
  match items with
  | [] => Done []
  | (category, data) :: rest =>
      match entry_of data with
      | TypeError msg => TypeError msg
      | Done e =>
          match demo_printed rest with
          | TypeError msg => TypeError msg
          | Done rows =>
              if (0 <? FinancialAnalyzer.percentage e)%float
              then Done ((category, e) :: rows) else Done rows
          end
      end
  end.

End Reports.

(** ** Vocabulary for the further properties *)

Module Portfolio.

(** The fraction a plan gives a category, 0 when it lists none. *)
Definition share (plan : dict float) (category : string) : float :=
  match get plan category with
  | Some x => x
  | None => 0%float
  end.

(** The caps and the floor the age adjustment names, by category. *)
Definition caps : list (string * float) :=
  [ ("stocks", 0.4%float); ("crypto", 0.15%float);
    ("fixed_deposits", 0.6%float); ("government_bonds", 0.4%float) ].

(** Every fraction of the plan is between 0 and 1. *)
Definition fractions_in_range (plan : dict float) : bool :=
  forallb (fun kv => (0 <=? snd kv)%float && (snd kv <=? 1)%float)%bool plan.

(** Every capped category is in the plan, at or below its cap. *)
Definition within_caps (plan : dict float) : bool :=
  forallb
    (fun kc =>
       match get plan (fst kc) with
       | Some x => (x <=? snd kc)%float
       | None => false
       end)
    caps.

(** The categories of a plan that hold more than nothing. *)
Definition funded (plan : dict float) : dict float :=
  filter (fun kv => (0 <? snd kv)%float) plan.

End Portfolio.

Module Store.

(** What the schema and [AUTOINCREMENT] promise of the table [users]: no two
    rows with one name, no two rows with one id. *)
Definition consistent (db : AuthManager.Db) : Prop :=
  NoDup (map AuthManager.username (AuthManager.users db)) /\
  NoDup (map AuthManager.id (AuthManager.users db)).

(** A row without its login stamp. *)
Definition account (r : AuthManager.UserRow)
  : Z * string * string * option string * Z :=
  (AuthManager.id r, AuthManager.username r, AuthManager.password_hash r,
   AuthManager.email r, AuthManager.created_at r).

Definition accounts (db : AuthManager.Db)
  : list (Z * string * string * option string * Z) :=
  map account (AuthManager.users db).

(** The ids of the table [sessions] are distinct and none is beyond the
    counter. *)
Definition well_numbered (t : AuthSessions.Table) : Prop :=
  NoDup (map AuthSessions.id (AuthSessions.sessions t)) /\
  Forall (fun r => AuthSessions.id r <= AuthSessions.sessions_seq t)
    (AuthSessions.sessions t).

End Store.

Module Display.

(** The number a chart reads off an item: the percentage of an entry, or the
    fraction itself. *)
Definition size_of (data : App.category_data) : float :=
  match data with
  | App.Breakdown e => FinancialAnalyzer.percentage e
  | App.Fraction x => x
  end.

(** The items a pie shows: those of a size above zero. *)
Definition shown (allocation_data : dict App.category_data)
  : dict App.category_data :=
  filter (fun kv => (0 <? size_of (snd kv))%float) allocation_data.



End Display.

(** ** More sample environments *)

Module Fixture.

(** A stable insertion sort on the timestamps, latest first. *)
Fixpoint insert_latest_first (r : AuthSessions.SessionRow)
  (rows : list AuthSessions.SessionRow) : list AuthSessions.SessionRow :=
  match rows with
  | [] => [r]
  | r' :: rest =>
      if AuthSessions.created_at r <? AuthSessions.created_at r'
      then r' :: insert_latest_first r rest
      else r :: rows
  end.

Definition engine : AuthSessions.QueryEngine :=
  {| AuthSessions.order_by_created_at_desc :=
       fold_right insert_latest_first [] |}.

(** A toy codec on strings: braces around the text; the empty bundle is
    refused. *)
Fixpoint chop (s : string) : string :=
  match s with
  | EmptyString => EmptyString
  | String c EmptyString => EmptyString
  | String c rest => String c (chop rest)
  end.

Definition json : Json string :=
  {| json_dumps := fun s =>
       if String.eqb s "" then Raise ValueError else Ok ("{" ++ s ++ "}");
     json_loads := fun t =>
       match t with
       | String "{"%char rest => Ok (chop rest)
       | _ => Raise ValueError
       end |}.

(** A provider with a single bar for every symbol, its volume missing. *)
Definition lone_bar : Bar := {| Close := 12.5%float; Volume := nan |}.

Definition young_market : Externals :=
  {| risk_model_predict := fun _ => 0.5%float;
     return_model_predict := fun _ => 0.09%float;
     ticker_history := fun _ _ => Ok [lone_bar];
     round2 := fun x => x;
     int_of_float := fun _ => Raise ValueError;
     pct_change_last := fun _ => nan;
     close_max := fun _ => 12.5%float;
     close_min := fun _ => 12.5%float;
     format_percent1 := fun _ => "9.0%" |}.

End Fixture.

Import FinancialAnalyzer.

(** * Properties *)

(** ** The allocation engine *)

Section AllocationEngine.
Context {py : Interpreter}.

(** The inputs of the engine fall into three risk tables and three age
    bands; [by_cases] walks through them and computes. *)
Ltac by_cases ud ar :=
  destruct py as [[|]];
  destruct ud as [age' ? ? ? ?];
  destruct ar as [? category ? ?];
  unfold calculate_investment_allocation, adjusted_allocation,
    base_allocation, adjust_for_age;
  cbn [age risk_category];
  (destruct (String.eqb category "low");
   [| destruct (String.eqb category "medium")]);
  (destruct (age' <? 35); [| destruct (age' >? 60)]).

(** C1. For every user profile and every analysis result, the engine
    returns a plan; the plan is the adjusted table with each fraction divided
    by the pre-normalization total; and the fractions of the plan sum to 1.0
    to within 1e-15. *)
Theorem allocation_sums_to_one (user_data : UserData)
  (analysis_result : AnalysisResult) :
  exists allocation plan,
    adjusted_allocation user_data analysis_result = Ok allocation /\
    calculate_investment_allocation user_data analysis_result = Ok plan /\
    plan = Spec.scaled_by (sum (values allocation)) allocation /\
    Spec.close_to (sum (values plan)) 1 1e-15 = true.
Proof.
  by_cases user_data analysis_result;
    (eexists; eexists; split; [vm_compute; reflexivity |]);
    repeat split; vm_compute; reflexivity.
Qed.

(** C3. On every base table: below 35, stocks is increased by 0.10 capped at
    0.40 and crypto by 0.05 capped at 0.15; above 60, fixed_deposits is
    increased by 0.20 capped at 0.60, government_bonds by 0.10 capped at 0.40
    and stocks decreased by 0.10 floored at 0.0; from 35 to 60 inclusive the
    table reaches the renormalization unchanged.  The four entries concerned
    are present in every base table. *)
Theorem age_adjustment_rule (user_data : UserData)
  (analysis_result : AnalysisResult) :
  let base := base_allocation (risk_category analysis_result) in
  (age user_data < 35 ->
   adjusted_allocation user_data analysis_result =
     Ok (Spec.update_entry "crypto" (Spec.increased_capped 0.05 0.15)
           (Spec.update_entry "stocks" (Spec.increased_capped 0.1 0.4) base)))
  /\
  (age user_data > 60 ->
   adjusted_allocation user_data analysis_result =
     Ok (Spec.update_entry "stocks" (Spec.decreased_floored 0.1 0.0)
           (Spec.update_entry "government_bonds" (Spec.increased_capped 0.1 0.4)
              (Spec.update_entry "fixed_deposits"
                 (Spec.increased_capped 0.2 0.6) base))))
  /\
  (35 <= age user_data <= 60 ->
   adjusted_allocation user_data analysis_result = Ok base)
  /\
  forallb (contains base)
    ["stocks"; "crypto"; "fixed_deposits"; "government_bonds"] = true.
Proof.
  destruct user_data as [age' ? ? ? ?].
  destruct analysis_result as [? category ? ?].
  unfold adjusted_allocation, base_allocation, adjust_for_age.
  cbn [age risk_category].
  (destruct (String.eqb category "low");
   [| destruct (String.eqb category "medium")]);
    (split; [| split; [| split]]);
    try (vm_compute; reflexivity); intros Hage.
  all: try (apply Z.ltb_lt in Hage; rewrite Hage; vm_compute; reflexivity).
  all: try (replace (age' <? 35) with false by (symmetry; apply Z.ltb_ge; lia);
            replace (age' >? 60) with true by (symmetry; apply Z.gtb_lt; lia);
            vm_compute; reflexivity).
  all: replace (age' <? 35) with false by (symmetry; apply Z.ltb_ge; lia);
    replace (age' >? 60) with false
      by (symmetry; rewrite Z.gtb_ltb; apply Z.ltb_ge; lia);
    reflexivity.
Qed.

(** C4. Low risk, age 30, savings 10000: the base table has the four
    non-zero entries 0.4, 0.3, 0.2, 0.1 (stocks and crypto stand at 0); the
    adjustment raises stocks to 0.1 and crypto to 0.05; the total before the
    renormalization is 1.15 (the very double under left-to-right summation,
    and within 1e-15 of it under either summation); the normalized
    fixed_deposits fraction is 0.348 to three decimals; the investable amount
    is 8000. *)
Theorem low_risk_age_30_example (income expenses risk_tolerance : float)
  (risk_score expected_return : float) (features : list float) :
  let user_data :=
    {| age := 30; income := income; expenses := expenses;
       savings := 10000; risk_tolerance := risk_tolerance |} in
  let analysis_result :=
    {| risk_score := risk_score; risk_category := "low";
       expected_return := expected_return; features := features |} in
  let base := base_allocation "low" in
  Spec.nonzero_entries base =
    [ ("fixed_deposits", 0.4%float); ("government_bonds", 0.3%float);
      ("money_market_funds", 0.2%float); ("mutual_funds", 0.1%float) ] /\
  get base "stocks" = Some 0%float /\
  get base "crypto" = Some 0%float /\
  exists allocation plan fixed_deposits,
    adjusted_allocation user_data analysis_result = Ok allocation /\
    allocation =
      [ ("fixed_deposits", 0.4%float); ("government_bonds", 0.3%float);
        ("money_market_funds", 0.2%float); ("mutual_funds", 0.1%float);
        ("stocks", 0.1%float); ("crypto", 0.05%float) ] /\
    sum_left (values allocation) = 1.15%float /\
    Spec.close_to (sum (values allocation)) 1.15 1e-15 = true /\
    calculate_investment_allocation user_data analysis_result = Ok plan /\
    get plan "fixed_deposits" = Some fixed_deposits /\
    Spec.close_to fixed_deposits 0.348 0.0005 = true /\
    investable_amount user_data = 8000%float.
Proof.
  intros user_data analysis_result base.
  repeat (split; [vm_compute; reflexivity |]).
  destruct py as [[|]];
    (eexists; eexists; eexists; split; [vm_compute; reflexivity |]);
    repeat split; vm_compute; reflexivity.
Qed.

(** The divisions of the renormalization raise exactly when the table is
    not empty and its total is zero. *)
Lemma divide_items_nonzero (total : float) (items : list (string * float)) :
  (total =? 0)%float = false ->
  forall acc, exists plan, divide_items items total acc = Ok plan.
Proof.
  intros Htotal. induction items as [| [k v] rest IH]; intros acc; simpl.
  - now exists acc.
  - unfold truediv. rewrite Htotal. simpl. apply IH.
Qed.

Lemma divide_items_zero (total : float) (items : list (string * float)) :
  (total =? 0)%float = true -> items <> [] ->
  forall acc, divide_items items total acc = Raise ZeroDivisionError.
Proof.
  intros Htotal Hne acc. destruct items as [| [k v] rest]; [easy |].
  simpl. unfold truediv. now rewrite Htotal.
Qed.

Lemma normalize_raises_iff (allocation : dict float) :
  raises (normalize allocation) = true <->
  allocation <> [] /\ (sum (values allocation) =? 0)%float = true.
Proof.
  unfold normalize.
  destruct (sum (values allocation) =? 0)%float eqn:Htotal.
  - destruct allocation as [| kv rest].
    + simpl. split; [discriminate | intros [H _]; now elim H].
    + rewrite (divide_items_zero _ _ Htotal) by discriminate.
      simpl. split; [split; [discriminate | reflexivity] | reflexivity].
  - destruct (divide_items_nonzero _ allocation Htotal []) as [plan ->].
    simpl. split; [discriminate | intros [_ H]; discriminate].
Qed.

(** C5, as the code has it. The renormalization divides without a guard,
    and a table whose total is zero makes it raise; but for every user
    profile and every analysis result the total that reaches the division
    is at least 0.99, hence not zero, and the engine returns a plan. *)
Theorem renormalization_total_never_zero (user_data : UserData)
  (analysis_result : AnalysisResult) :
  exists allocation plan,
    adjusted_allocation user_data analysis_result = Ok allocation /\
    (0.99 <=? sum (values allocation))%float = true /\
    (sum (values allocation) =? 0)%float = false /\
    raises (normalize allocation) = false /\
    calculate_investment_allocation user_data analysis_result = Ok plan.
Proof.
  by_cases user_data analysis_result;
    (eexists; eexists; split; [vm_compute; reflexivity |]);
    repeat split; vm_compute; reflexivity.
Qed.

End AllocationEngine.

(** C3 on the high-risk table at the ages 34, 61, 35 and 60. *)
Lemma age_adjustment_rule_witness :
  adjusted_allocation (Sample.profile 34 10000) (Sample.analysis "high") =
    Ok [ ("fixed_deposits", 0.1%float); ("government_bonds", 0.1%float);
         ("money_market_funds", 0.05%float); ("mutual_funds", 0.25%float);
         ("etfs", 0.2%float); ("stocks", 0.35%float); ("crypto", 0.1%float) ] /\
  adjusted_allocation (Sample.profile 61 10000) (Sample.analysis "high") =
    Ok [ ("fixed_deposits", (0.1 + 0.2)%float); ("government_bonds", 0.2%float);
         ("money_market_funds", 0.05%float); ("mutual_funds", 0.25%float);
         ("etfs", 0.2%float); ("stocks", 0.15%float); ("crypto", 0.05%float) ] /\
  adjusted_allocation (Sample.profile 35 10000) (Sample.analysis "high") =
    Ok (base_allocation "high") /\
  adjusted_allocation (Sample.profile 60 10000) (Sample.analysis "high") =
    Ok (base_allocation "high").
Proof.
  destruct (age_adjustment_rule (Sample.profile 34 10000)
              (Sample.analysis "high")) as [Hyoung _].
  destruct (age_adjustment_rule (Sample.profile 61 10000)
              (Sample.analysis "high")) as [_ [Hold _]].
  destruct (age_adjustment_rule (Sample.profile 35 10000)
              (Sample.analysis "high")) as [_ [_ [Hlower _]]].
  destruct (age_adjustment_rule (Sample.profile 60 10000)
              (Sample.analysis "high")) as [_ [_ [Hupper _]]].
  split; [| split; [| split]].
  - rewrite Hyoung by reflexivity. vm_compute. reflexivity.
  - rewrite Hold by reflexivity. vm_compute. reflexivity.
  - apply Hlower. split; discriminate.
  - apply Hupper. split; discriminate.
Defined.

(** C5, as the specification states it, fails: on a table of zeros the
    division of the renormalization is a division by zero, under either
    summation. *)
Lemma renormalization_is_unguarded :
  normalize (py := Sample.py311)
    [("stocks", 0.0%float); ("crypto", 0.0%float)] = Raise ZeroDivisionError /\
  normalize (py := Sample.py312)
    [("stocks", 0.0%float); ("crypto", 0.0%float)] = Raise ZeroDivisionError.
Proof. split; vm_compute; reflexivity. Qed.

(** ** The scoring engine *)

(** Comparison of binary64 numbers, through the specification of the
    primitive operations. *)
Module FloatOrder.

Lemma SFcompare_swap (x y : spec_float) (c : comparison) :
  SFcompare x y = Some c -> SFcompare y x = Some (CompOpp c).
Proof.
  destruct x as [sx | sx | | sx mx ex], y as [sy | sy | | sy my ey]; simpl;
    try discriminate;
    try (intros H; injection H as <-;
         try destruct sx; try destruct sy; reflexivity).
  intros H; injection H as <-.
  destruct sx, sy; try reflexivity;
    rewrite (Z.compare_antisym ex ey);
    destruct (ex ?= ey); simpl; try reflexivity.
  - rewrite CompOpp_involutive. f_equal.
    exact (Pos.compare_cont_antisym my mx Eq).
  - f_equal. symmetry. exact (Pos.compare_cont_antisym mx my Eq).
Qed.

Lemma leb_not_ltb (a r : float) :
  (a <=? r)%float = true -> (r <? a)%float = false.
Proof.
  rewrite leb_spec, ltb_spec. unfold SFleb, SFltb.
  destruct (SFcompare (Prim2SF a) (Prim2SF r)) as [c |] eqn:E; [| discriminate].
  rewrite (SFcompare_swap _ _ _ E). destruct c; simpl; congruence.
Qed.

(** At or above 0.66 is not below 0.33: the two constants have the same
    mantissa and exponents one apart. *)
Lemma leb_066_not_ltb_033 (r : float) :
  (0.66 <=? r)%float = true -> (r <? 0.33)%float = false.
Proof.
  rewrite leb_spec, ltb_spec.
  replace (Prim2SF 0.66) with (S754_finite false 5944751508129055 (-53))
    by (vm_compute; reflexivity).
  replace (Prim2SF 0.33) with (S754_finite false 5944751508129055 (-54))
    by (vm_compute; reflexivity).
  unfold SFleb, SFltb.
  destruct (Prim2SF r) as [s | s | | s m e]; cbn [SFcompare];
    try discriminate.
  - destruct s; [discriminate | reflexivity].
  - destruct s; [discriminate |].
    destruct (-53 ?= e) eqn:E1; try discriminate.
    + apply Z.compare_eq in E1; subst e. reflexivity.
    + rewrite Z.compare_lt_iff in E1.
      destruct (e ?= -54) eqn:E2; try reflexivity.
      * apply Z.compare_eq in E2. lia.
      * rewrite Z.compare_lt_iff in E2. lia.
Qed.

End FloatOrder.

Section ScoringEngine.
Context {ext : Externals}.

(** C2. Whatever score the fitted model returns for a profile, the category
    of the analysis is low below 0.33, medium from 0.33 up to but not
    including 0.66, and high from 0.66 on. *)
Theorem risk_category_thresholds (user_data : UserData) :
  let result := analyze_user_profile user_data in
  let r := risk_score result in
  ((r <? 0.33)%float = true -> risk_category result = "low") /\
  ((0.33 <=? r)%float = true -> (r <? 0.66)%float = true ->
   risk_category result = "medium") /\
  ((0.66 <=? r)%float = true -> risk_category result = "high").
Proof.
  unfold analyze_user_profile. cbn [risk_score risk_category].
  set (r := risk_model_predict _).
  repeat split.
  - intros ->. reflexivity.
  - intros Hlow ->. now rewrite (FloatOrder.leb_not_ltb _ _ Hlow).
  - intros Hhigh.
    now rewrite (FloatOrder.leb_066_not_ltb_033 _ Hhigh),
      (FloatOrder.leb_not_ltb _ _ Hhigh).
Qed.

End ScoringEngine.

(** C2 at three scores: 0.2 is low, 0.33 itself is medium, 0.66 itself is
    high. *)
Lemma risk_category_thresholds_witness :
  risk_category
    (analyze_user_profile (ext := Sample.externals 0.2)
       (Sample.profile 30 10000)) = "low" /\
  risk_category
    (analyze_user_profile (ext := Sample.externals 0.33)
       (Sample.profile 30 10000)) = "medium" /\
  risk_category
    (analyze_user_profile (ext := Sample.externals 0.66)
       (Sample.profile 30 10000)) = "high".
Proof.
  destruct (risk_category_thresholds (ext := Sample.externals 0.2)
              (Sample.profile 30 10000)) as [Hlow _].
  destruct (risk_category_thresholds (ext := Sample.externals 0.33)
              (Sample.profile 30 10000)) as [_ [Hmedium _]].
  destruct (risk_category_thresholds (ext := Sample.externals 0.66)
              (Sample.profile 30 10000)) as [_ [_ Hhigh]].
  split; [| split].
  - apply Hlow. vm_compute; reflexivity.
  - apply Hmedium; vm_compute; reflexivity.
  - apply Hhigh. vm_compute; reflexivity.
Defined.

(** ** Dictionaries *)

Module DictFacts.

Section Facts.
Context {V : Type}.
Implicit Types (d : dict V) (k : string) (v : V).

Lemma get_set_same d k v : get (set d k v) k = Some v.
Proof.
  induction d as [| [k' v'] d IH]; simpl.
  - now rewrite String.eqb_refl.
  - destruct (String.eqb k' k) eqn:E; simpl; rewrite E; [reflexivity | exact IH].
Qed.

Lemma get_set_other d k k' v : k <> k' -> get (set d k v) k' = get d k'.
Proof.
  intros Hne. induction d as [| [k0 v0] d IH]; simpl.
  - apply String.eqb_neq in Hne. now rewrite Hne.
  - destruct (String.eqb k0 k) eqn:E; simpl.
    + apply String.eqb_eq in E; subst k0.
      apply String.eqb_neq in Hne. now rewrite Hne.
    + now rewrite IH.
Qed.

Lemma get_none_iff d k : get d k = None <-> ~ In k (keys d).
Proof.
  induction d as [| [k' v'] d IH]; simpl.
  - tauto.
  - destruct (String.eqb k' k) eqn:E.
    + apply String.eqb_eq in E. split; [discriminate | tauto].
    + apply String.eqb_neq in E. rewrite IH. tauto.
Qed.

Lemma length_set d k v : (List.length (set d k v) <= S (List.length d))%nat.
Proof.
  induction d as [| [k' v'] d IH]; simpl; [lia |].
  destruct (String.eqb k' k); simpl; lia.
Qed.

Lemma contains_get d k v : get d k = Some v -> contains d k = true.
Proof. unfold contains. now intros ->. Qed.

Lemma contains_set_same d k v : contains (set d k v) k = true.
Proof. unfold contains. now rewrite get_set_same. Qed.

Lemma contains_set_keeps d k k' v :
  contains d k' = true -> contains (set d k v) k' = true.
Proof.
  destruct (string_dec k k') as [-> | Hne].
  - intros _. apply contains_set_same.
  - unfold contains. now rewrite get_set_other.
Qed.

End Facts.

Create HintDb pydict.
#[export] Hint Resolve get_set_same get_set_other length_set contains_get
  contains_set_same contains_set_keeps : pydict.

End DictFacts.

Import DictFacts.

(** ** The market data gateway *)

Section MarketDataGateway.
Context {ext : Externals}.
Implicit Types (symbols : list string) (period s : string)
  (market_data : dict Quote).

Lemma history_error_raises s period e :
  ticker_history s period = Raise e -> raises (try_quote s period) = true.
Proof. unfold try_quote. now intros ->. Qed.

Lemma fetch_symbol_failed market_data s period :
  raises (try_quote s period) = true ->
  fetch_symbol market_data s period = set market_data s zero_quote.
Proof.
  unfold fetch_symbol. now destruct (try_quote s period) as [[q |] | e].
Qed.

Lemma fetch_symbol_empty market_data s period :
  ticker_history s period = Ok [] ->
  fetch_symbol market_data s period = market_data.
Proof. unfold fetch_symbol, try_quote. now intros ->. Qed.

Lemma iloc_last_some {A : Type} (rows : list A) :
  rows <> [] -> exists r, iloc_last rows = Some r.
Proof.
  intros Hne. unfold iloc_last.
  destruct (rev rows) as [| r rest] eqn:E; [| now exists r].
  apply (f_equal (@rev A)) in E. rewrite rev_involutive in E. now elim Hne.
Qed.

(** A non-empty history leaves an entry for the symbol, the computed record
    or, if the conversion of the volume raises, the record of zeros. *)
Lemma fetch_symbol_data market_data s period hist :
  ticker_history s period = Ok hist -> hist <> [] ->
  exists quote, fetch_symbol market_data s period = set market_data s quote.
Proof.
  intros Hhist Hne. unfold fetch_symbol, try_quote. rewrite Hhist. simpl.
  destruct (iloc_last_some hist Hne) as [last ->].
  destruct (if isna (Volume last) then Ok 0 else int_of_float (Volume last))
    as [vol | e]; simpl; eauto.
Qed.

Lemma fetch_symbol_other market_data s x period :
  x <> s -> get (fetch_symbol market_data x period) s = get market_data s.
Proof.
  intros Hne. unfold fetch_symbol.
  destruct (try_quote x period) as [[q |] | e]; auto with pydict.
Qed.

Lemma fetch_all_other symbols period s :
  ~ In s symbols ->
  forall market_data,
    get (fetch_all symbols period market_data) s = get market_data s.
Proof.
  induction symbols as [| x rest IH]; intros Hnotin market_data; simpl.
  - reflexivity.
  - rewrite IH by (simpl in Hnotin; tauto).
    apply fetch_symbol_other. simpl in Hnotin. tauto.
Qed.

Lemma fetch_all_failed symbols period s :
  raises (try_quote s period) = true -> In s symbols ->
  forall market_data,
    get (fetch_all symbols period market_data) s = Some zero_quote.
Proof.
  intros Hfail. induction symbols as [| x rest IH]; intros Hin market_data.
  - destruct Hin.
  - simpl. destruct (in_dec string_dec s rest) as [Hrest | Hrest].
    + now apply IH.
    + destruct Hin as [-> | Hin]; [| contradiction].
      rewrite fetch_all_other by assumption.
      rewrite fetch_symbol_failed by assumption.
      auto with pydict.
Qed.

Lemma fetch_all_empty symbols period s :
  ticker_history s period = Ok [] ->
  forall market_data,
    get (fetch_all symbols period market_data) s = get market_data s.
Proof.
  intros Hempty. induction symbols as [| x rest IH]; intros market_data; simpl.
  - reflexivity.
  - rewrite IH. destruct (string_dec x s) as [-> | Hne].
    + now rewrite fetch_symbol_empty.
    + now apply fetch_symbol_other.
Qed.

Lemma length_fetch_symbol market_data x period :
  (List.length (fetch_symbol market_data x period)
   <= S (List.length market_data))%nat.
Proof.
  unfold fetch_symbol.
  destruct (try_quote x period) as [[q |] | e]; auto with pydict.
Qed.

Lemma length_fetch_all symbols period s :
  ticker_history s period = Ok [] -> In s symbols ->
  forall market_data,
    (List.length (fetch_all symbols period market_data)
     < List.length market_data + List.length symbols)%nat.
Proof.
  intros Hempty.
  assert (Hle : forall l market_data,
             (List.length (fetch_all l period market_data)
              <= List.length market_data + List.length l)%nat).
  { induction l as [| x rest IH]; intros market_data; simpl; [lia |].
    specialize (IH (fetch_symbol market_data x period)).
    pose proof (length_fetch_symbol market_data x period). lia. }
  induction symbols as [| x rest IH]; intros Hin market_data; [destruct Hin |].
  simpl. destruct (string_dec x s) as [-> | Hne].
  - rewrite fetch_symbol_empty by assumption.
    specialize (Hle rest market_data). lia.
  - destruct Hin as [-> | Hin]; [contradiction |].
    specialize (IH Hin (fetch_symbol market_data x period)).
    pose proof (length_fetch_symbol market_data x period). lia.
Qed.

Lemma fetch_symbol_keeps market_data s x period :
  contains market_data s = true ->
  contains (fetch_symbol market_data x period) s = true.
Proof.
  intros Hin. unfold fetch_symbol.
  destruct (try_quote x period) as [[q |] | e]; auto with pydict.
Qed.

Lemma fetch_all_keeps symbols period s :
  forall market_data,
    contains market_data s = true ->
    contains (fetch_all symbols period market_data) s = true.
Proof.
  induction symbols as [| x rest IH]; intros market_data Hin; simpl.
  - exact Hin.
  - apply IH. now apply fetch_symbol_keeps.
Qed.

Lemma fetch_all_data symbols period s hist :
  ticker_history s period = Ok hist -> hist <> [] -> In s symbols ->
  forall market_data,
    contains (fetch_all symbols period market_data) s = true.
Proof.
  intros Hhist Hne. induction symbols as [| x rest IH]; intros Hin market_data.
  - destruct Hin.
  - simpl. destruct Hin as [-> | Hin]; [| now apply IH].
    apply fetch_all_keeps.
    destruct (fetch_symbol_data market_data s period hist Hhist Hne) as [q ->].
    auto with pydict.
Qed.

(** C6. In any batch, a symbol whose fetch raises is mapped to the record of
    zeros, and a symbol whose fetch returns a history with rows has an entry.
    A batch of one symbol whose fetch raises and one whose fetch succeeds
    with a quote returns, in either order, exactly the two entries: the
    record of zeros for the one and the quote for the other.  No exception
    leaves the call: [get_market_data] is a total function into
    dictionaries. *)
Theorem failed_fetch_yields_zero_record symbols period :
  (forall s, In s symbols -> raises (try_quote s period) = true ->
             get (get_market_data symbols period) s = Some zero_quote)
  /\
  (forall s hist, In s symbols ->
                  ticker_history s period = Ok hist -> hist <> [] ->
                  contains (get_market_data symbols period) s = true)
  /\
  (forall bad good quote,
      raises (try_quote bad period) = true ->
      try_quote good period = Ok (Some quote) ->
      get_market_data [bad; good] period =
        [(bad, zero_quote); (good, quote)] /\
      get_market_data [good; bad] period =
        [(good, quote); (bad, zero_quote)]).
Proof.
  split; [| split].
  - intros s Hin Hfail. unfold get_market_data. now apply fetch_all_failed.
  - intros s hist Hin Hhist Hne. unfold get_market_data.
    now apply (fetch_all_data symbols period s hist).
  - intros bad good quote Hbad Hgood.
    assert (Hdiff : bad <> good).
    { intros ->. rewrite Hgood in Hbad. discriminate. }
    assert (Hbg : String.eqb bad good = false) by now apply String.eqb_neq.
    assert (Hgb : String.eqb good bad = false)
      by (apply String.eqb_neq; congruence).
    unfold get_market_data; simpl.
    rewrite !(fetch_symbol_failed _ bad period Hbad).
    unfold fetch_symbol. rewrite Hgood. simpl.
    now rewrite Hbg, Hgb.
Qed.

(** C9. A symbol whose fetch returns an empty history without raising has
    no entry in the result, neither its quote nor the record of zeros; a
    batch that contains such a symbol yields fewer entries than it has
    symbols. *)
Theorem empty_history_is_omitted symbols period s :
  ticker_history s period = Ok [] ->
  get (get_market_data symbols period) s = None /\
  contains (get_market_data symbols period) s = false /\
  (In s symbols ->
   (List.length (get_market_data symbols period) < List.length symbols)%nat).
Proof.
  intros Hempty. unfold get_market_data, contains.
  rewrite (fetch_all_empty symbols period s Hempty). simpl.
  repeat split. intros Hin.
  exact (length_fetch_all symbols period s Hempty Hin []).
Qed.

End MarketDataGateway.

(** C6 on a batch of two: ["FAIL"] is refused by the provider, ["AAPL"] has
    two bars. *)
Lemma failed_fetch_yields_zero_record_witness :
  let result :=
    get_market_data (ext := Sample.externals 0.5) ["FAIL"; "AAPL"] "1mo" in
  get result "FAIL" = Some zero_quote /\
  contains result "AAPL" = true /\
  result =
    [ ("FAIL", zero_quote);
      ("AAPL",
       {| current_price := Float 103.25; change_percent := Float 0;
          volume := Int 0; high_52w := Float 103.25;
          low_52w := Float 101.5 |}) ].
Proof.
  destruct (failed_fetch_yields_zero_record (ext := Sample.externals 0.5)
              ["FAIL"; "AAPL"] "1mo") as [Hzero [Hdata Hboth]].
  split; [| split].
  - apply Hzero; [simpl; auto | reflexivity].
  - apply (Hdata "AAPL" Sample.bars);
      [simpl; auto | reflexivity | discriminate].
  - apply Hboth; reflexivity.
Defined.

(** C9 on a batch of two: the provider returns no row for ["NODATA"]. *)
Lemma empty_history_is_omitted_witness :
  let result :=
    get_market_data (ext := Sample.externals 0.5) ["AAPL"; "NODATA"] "1mo" in
  ticker_history (Externals := Sample.externals 0.5) "NODATA" "1mo" = Ok [] /\
  get result "NODATA" = None /\
  contains result "NODATA" = false /\
  (List.length result < 2)%nat.
Proof.
  destruct (empty_history_is_omitted (ext := Sample.externals 0.5)
              ["AAPL"; "NODATA"] "1mo" "NODATA" eq_refl)
    as [Hget [Hcontains Hlength]].
  repeat split; try assumption.
  apply Hlength. simpl. auto.
Defined.

(** ** The advice composer *)

Section AdviceComposer.
Context {ext : Externals}.

Lemma fold_breakdown (user_data : UserData) (allocation : dict float) :
  wf allocation ->
  forall (breakdown : dict BreakdownEntry) (category : string),
    get (fold_left (add_breakdown (investable_amount user_data))
           allocation breakdown) category =
    match get allocation category with
    | Some fraction =>
        if (0 <? fraction)%float then
          Some {| percentage := (fraction * 100)%float;
                  amount := (investable_amount user_data * fraction)%float;
                  description := _get_category_description category |}
        else get breakdown category
    | None => get breakdown category
    end.
Proof.
  unfold wf. induction allocation as [| [k p] rest IH];
    intros Hwf breakdown category; cbn [fold_left get].
  - reflexivity.
  - inversion Hwf as [| ? ? Hfresh Hrest]; subst.
    rewrite (IH Hrest). unfold add_breakdown.
    destruct (String.eqb k category) eqn:E.
    + apply String.eqb_eq in E; subst category.
      apply get_none_iff in Hfresh. rewrite Hfresh.
      destruct (0 <? p)%float; [apply get_set_same | reflexivity].
    + apply String.eqb_neq in E.
      destruct (0 <? p)%float; [| reflexivity].
      now rewrite (get_set_other _ _ _ _ E).
Qed.

(** C8. The investable amount is savings times 0.8; the breakdown of the
    report has an entry for a category exactly when the allocation gives it
    a fraction above zero, and the amount of that entry is the investable
    amount times the fraction. *)
Theorem breakdown_matches_allocation (user_data : UserData)
  (analysis_result : AnalysisResult) (allocation : dict float)
  (market_data : dict Quote) :
  wf allocation ->
  let report :=
    generate_advice_report user_data analysis_result allocation market_data in
  investable_amount user_data = (savings user_data * 0.8)%float /\
  forall category,
    get (investment_breakdown report) category =
    match get allocation category with
    | Some fraction =>
        if (0 <? fraction)%float then
          Some {| percentage := (fraction * 100)%float;
                  amount := (investable_amount user_data * fraction)%float;
                  description := _get_category_description category |}
        else None
    | None => None
    end.
Proof.
  intros Hwf report. split; [reflexivity |]. intros category.
  unfold report, generate_advice_report. cbn [investment_breakdown].
  now rewrite (fold_breakdown user_data allocation Hwf).
Qed.

End AdviceComposer.

(** C8 on savings of 10000 and a plan of three categories, one of them at
    zero. *)
Lemma breakdown_matches_allocation_witness :
  let allocation :=
    [("mutual_funds", 0.75%float); ("stocks", 0.25%float);
     ("crypto", 0%float)] in
  let report :=
    generate_advice_report (ext := Sample.externals 0.5)
      (Sample.profile 30 10000) (Sample.analysis "low") allocation [] in
  wf allocation /\
  get (investment_breakdown report) "stocks" =
    Some {| percentage := 25%float; amount := 2000%float;
            description := "Individual company shares with higher volatility" |} /\
  get (investment_breakdown report) "crypto" = None /\
  get (investment_breakdown report) "etfs" = None.
Proof.
  intros allocation report.
  assert (Hwf : wf allocation).
  { unfold wf, allocation. simpl.
    repeat constructor; simpl; intuition discriminate. }
  destruct (breakdown_matches_allocation (ext := Sample.externals 0.5)
              (Sample.profile 30 10000) (Sample.analysis "low") allocation []
              Hwf) as [_ Hentries].
  split; [exact Hwf |].
  split; [| split]; unfold report; rewrite Hentries; reflexivity.
Defined.

(** ** The account store *)

Import AuthManager.

Section AccountStore.
Context {hl : Hashlib}.
Implicit Types (db : Db) (u p : string) (e : option string) (now : Z).

Lemma find_append {A : Type} (f : A -> bool) (l1 l2 : list A) :
  find f (l1 ++ l2) =
  match find f l1 with
  | Some x => Some x
  | None => find f l2
  end.
Proof.
  induction l1 as [| x l1 IH]; simpl; [reflexivity |].
  now destruct (f x).
Qed.

Lemma find_all_false {A : Type} (f : A -> bool) (l : list A) :
  (forall x, In x l -> f x = false) -> find f l = None.
Proof.
  induction l as [| x l IH]; intros Hall; simpl; [reflexivity |].
  rewrite (Hall x) by (simpl; auto). apply IH.
  intros y Hy. apply Hall. simpl. auto.
Qed.

(** On a store that has no row for [u], the insertion meets no constraint
    and registration appends one row. *)
Lemma register_fresh db now u p e :
  select_by_username db u = None ->
  register_user db now u p e =
    ({| users := users db ++
          [ {| id := next_id db; username := u;
               password_hash := hash_password p; email := e;
               created_at := now; last_login := None |} ];
        users_seq := next_id db |},
     (true, "User registered successfully")).
Proof.
  intros Hfresh. unfold register_user, insert_user. now rewrite Hfresh.
Qed.

Lemma register_known db now u p e row :
  select_by_username db u = Some row ->
  register_user db now u p e = (db, (false, "Username already exists")).
Proof. intros Hknown. unfold register_user. now rewrite Hknown. Qed.

(** Whatever the first call did, the name is taken after it. *)
Lemma registered_afterwards db now u p e :
  exists row, select_by_username (fst (register_user db now u p e)) u = Some row.
Proof.
  destruct (select_by_username db u) as [row |] eqn:Hsel.
  - rewrite (register_known _ _ _ _ _ _ Hsel). simpl. eauto.
  - rewrite (register_fresh _ _ _ _ _ Hsel). unfold select_by_username in *.
    simpl. rewrite find_append, Hsel. simpl. rewrite String.eqb_refl. eauto.
Qed.

Lemma authenticate_no_match db now u p :
  (forall r, In r (users db) -> username r = u ->
             password_hash r <> hash_password p) ->
  authenticate_user db now u p =
    (db, (false, Message "Invalid username or password")).
Proof.
  intros Hwrong. unfold authenticate_user, select_by_credentials.
  rewrite find_all_false; [reflexivity |].
  intros r Hr. apply andb_false_iff.
  destruct (String.eqb (username r) u) eqn:Eu; [right | now left].
  apply String.eqb_eq in Eu. apply String.eqb_neq. now apply Hwrong.
Qed.

(** C7. A second registration under a name returns the pair of [False] and
    the reason "Username already exists", and leaves the store as the first
    call left it.  Authentication of a known user with a password whose
    hash no row of that user carries, and authentication of a name the store
    does not know, return the same pair: [False] and "Invalid username or
    password". *)
Theorem duplicate_and_bad_credentials db :
  (forall now1 now2 u p1 p2 e1 e2,
      let db1 := fst (register_user db now1 u p1 e1) in
      register_user db1 now2 u p2 e2 =
        (db1, (false, "Username already exists")))
  /\
  (forall now now' u p u' p',
      (exists r, In r (users db) /\ username r = u) ->
      (forall r, In r (users db) -> username r = u ->
                 password_hash r <> hash_password p) ->
      select_by_username db u' = None ->
      authenticate_user db now u p =
        (db, (false, Message "Invalid username or password")) /\
      authenticate_user db now' u' p' =
        (db, (false, Message "Invalid username or password")) /\
      snd (authenticate_user db now u p) =
        snd (authenticate_user db now' u' p')).
Proof.
  split.
  - intros now1 now2 u p1 p2 e1 e2 db1.
    destruct (registered_afterwards db now1 u p1 e1) as [row Hrow].
    exact (register_known db1 now2 u p2 e2 row Hrow).
  - intros now now' u p u' p' _ Hwrong Hunknown.
    assert (Hfirst := authenticate_no_match db now u p Hwrong).
    assert (Hsecond : authenticate_user db now' u' p' =
                        (db, (false, Message "Invalid username or password"))).
    { apply authenticate_no_match. intros r Hr Hname.
      unfold select_by_username in Hunknown.
      apply (find_none _ _ Hunknown) in Hr.
      apply String.eqb_neq in Hr. contradiction. }
    rewrite Hfirst, Hsecond. auto.
Qed.

(** C10. If registration of [u] with [p] succeeds on a store that has no
    row for [u], then authentication of [u] with [p] on the resulting store
    succeeds and returns the id, name and email of the row registration
    made for [u]; the stored hash and the hash computed at login are the
    same function of [p]. *)
Theorem register_then_authenticate db now now' u p e db1 msg :
  select_by_username db u = None ->
  register_user db now u p e = (db1, (true, msg)) ->
  exists uid,
    authenticate_user db1 now' u p =
      (update_last_login db1 now' uid, (true, User uid u e)) /\
    select_by_username db1 u =
      Some {| id := uid; username := u; password_hash := hash_password p;
              email := e; created_at := now; last_login := None |}.
Proof.
  intros Hfresh Hreg. rewrite (register_fresh _ _ _ _ _ Hfresh) in Hreg.
  injection Hreg as <- _. exists (next_id db).
  assert (Hnone : find
                    (fun r => String.eqb (username r) u
                              && String.eqb (password_hash r) (hash_password p))%bool
                    (users db) = None).
  { apply find_all_false. intros r Hr.
    unfold select_by_username in Hfresh.
    now rewrite (find_none _ _ Hfresh r Hr). }
  unfold authenticate_user, select_by_credentials, select_by_username in *.
  cbn [users]. rewrite !find_append, Hnone, Hfresh. simpl.
  rewrite !String.eqb_refl. simpl. auto.
Qed.

End AccountStore.

(** C7 on a store where ["alice"] is registered and ["bob"] is not. *)
Lemma duplicate_and_bad_credentials_witness :
  let db1 :=
    fst (register_user (hl := Sample.hashlib) empty_db 100
           "alice" "s3cret" None) in
  register_user (hl := Sample.hashlib) db1 200 "alice" "other" None =
    (db1, (false, "Username already exists")) /\
  authenticate_user (hl := Sample.hashlib) db1 300 "alice" "guess" =
    (db1, (false, Message "Invalid username or password")) /\
  authenticate_user (hl := Sample.hashlib) db1 400 "bob" "s3cret" =
    (db1, (false, Message "Invalid username or password")).
Proof.
  intros db1.
  destruct (duplicate_and_bad_credentials (hl := Sample.hashlib) empty_db)
    as [Hdup _].
  destruct (duplicate_and_bad_credentials (hl := Sample.hashlib) db1)
    as [_ Hauth].
  split; [exact (Hdup 100 200 "alice" "s3cret" "other" None None) |].
  destruct (Hauth 300 400 "alice" "guess" "bob" "s3cret") as [Hx [Hy _]].
  - eexists. split; [left; reflexivity | reflexivity].
  - intros r [<- | []] _. discriminate.
  - reflexivity.
  - now split.
Defined.

(** C10 on the empty store. *)
Lemma register_then_authenticate_witness :
  let registered :=
    register_user (hl := Sample.hashlib) empty_db 100
      "alice" "s3cret" (Some "alice@example.org") in
  select_by_username empty_db "alice" = None /\
  snd registered = (true, "User registered successfully") /\
  snd (authenticate_user (hl := Sample.hashlib) (fst registered) 200
         "alice" "s3cret") =
    (true, User 1 "alice" (Some "alice@example.org")).
Proof.
  intros registered.
  destruct (register_then_authenticate (hl := Sample.hashlib) empty_db 100 200
              "alice" "s3cret" (Some "alice@example.org")
              (fst registered) "User registered successfully"
              eq_refl eq_refl) as [uid [Hauth Hrow]].
  split; [reflexivity | split; [reflexivity |]].
  rewrite Hauth. simpl.
  injection Hrow as <-. reflexivity.
Defined.

(** * Further properties *)

(** ** The allocation engine, beyond the specification *)

(** The value an equation of the goal computes to, handed to the
    existential in front of it. *)
Ltac exists_plan :=
  match goal with
  | |- exists _, ?lhs = Ok _ /\ _ =>
      let v := eval vm_compute in lhs in
      match v with
      | Ok ?plan => exists plan
      end
  end.


(** The nine cases of the engine, under either summation. *)
Ltac engine_cases py ud ar :=
  destruct py as [[|]];
  destruct ud as [age' ? ? ? ?];
  destruct ar as [? category ? ?];
  unfold calculate_investment_allocation, adjusted_allocation,
    base_allocation, adjust_for_age;
  cbn [age risk_category];
  (destruct (String.eqb category "low");
   [| destruct (String.eqb category "medium")]);
  (destruct (age' <? 35); [| destruct (age' >? 60)]).

Section EngineShape.
Context {py : Interpreter}.

(** X1. The plan lists the categories of the base table, in its order: neither
    the adjustment nor the renormalization adds, drops or moves one.  Every
    fraction is between 0 and 1, and the caps of the adjustment survive the
    renormalization: stocks at most 0.40, crypto at most 0.15, fixed deposits
    at most 0.60, government bonds at most 0.40. *)
Theorem plan_keeps_categories_and_caps (user_data : UserData)
  (analysis_result : AnalysisResult) :
  exists plan,
    calculate_investment_allocation user_data analysis_result = Ok plan /\
    keys plan = keys (base_allocation (risk_category analysis_result)) /\
    Portfolio.fractions_in_range plan = true /\
    Portfolio.within_caps plan = true.
Proof.
  engine_cases py user_data analysis_result; exists_plan;
    repeat split; vm_compute; reflexivity.
Qed.

(** X2. For one risk category, the plan moves with age as the comments of the
    adjustment say: the young hold at least the stocks and the crypto of the
    middle band, the middle band at least the stocks of the old, and the old
    at least the fixed deposits and the government bonds of the middle
    band. *)
Theorem plan_shifts_with_age (analysis_result : AnalysisResult)
  (young middle old : UserData) :
  age young < 35 -> 35 <= age middle <= 60 -> 60 < age old ->
  exists plan_young plan_middle plan_old,
    calculate_investment_allocation young analysis_result = Ok plan_young /\
    calculate_investment_allocation middle analysis_result = Ok plan_middle /\
    calculate_investment_allocation old analysis_result = Ok plan_old /\
    (Portfolio.share plan_middle "stocks"
     <=? Portfolio.share plan_young "stocks")%float = true /\
    (Portfolio.share plan_middle "crypto"
     <=? Portfolio.share plan_young "crypto")%float = true /\
    (Portfolio.share plan_old "stocks"
     <=? Portfolio.share plan_middle "stocks")%float = true /\
    (Portfolio.share plan_middle "fixed_deposits"
     <=? Portfolio.share plan_old "fixed_deposits")%float = true /\
    (Portfolio.share plan_middle "government_bonds"
     <=? Portfolio.share plan_old "government_bonds")%float = true.
Proof.
  intros Hyoung Hmiddle Hold.
  unfold calculate_investment_allocation, adjusted_allocation, adjust_for_age.
  replace (age young <? 35) with true by (symmetry; apply Z.ltb_lt; lia).
  replace (age middle <? 35) with false by (symmetry; apply Z.ltb_ge; lia).
  replace (age middle >? 60) with false
    by (symmetry; rewrite Z.gtb_ltb; apply Z.ltb_ge; lia).
  replace (age old <? 35) with false by (symmetry; apply Z.ltb_ge; lia).
  replace (age old >? 60) with true by (symmetry; apply Z.gtb_lt; lia).
  unfold base_allocation.
  destruct py as [[|]];
    (destruct (String.eqb (risk_category analysis_result) "low");
     [| destruct (String.eqb (risk_category analysis_result) "medium")]);
    match goal with
    | |- exists y m o, ?young = _ /\ ?middle = _ /\ ?old = _ /\ _ =>
        let vy := eval vm_compute in young in
        let vm := eval vm_compute in middle in
        let vo := eval vm_compute in old in
        match constr:((vy, vm, vo)) with
        | (Ok ?y, Ok ?m, Ok ?o) => exists y, m, o
        end
    end;
    repeat split; vm_compute; reflexivity.
Qed.

End EngineShape.

(** The shift with age on the high-risk table, at 30, 45 and 65. *)
Lemma plan_shifts_with_age_witness :
  exists plan_young plan_middle plan_old,
    calculate_investment_allocation (py := Sample.py312)
      (Sample.profile 30 10000) (Sample.analysis "high") = Ok plan_young /\
    calculate_investment_allocation (py := Sample.py312)
      (Sample.profile 45 10000) (Sample.analysis "high") = Ok plan_middle /\
    calculate_investment_allocation (py := Sample.py312)
      (Sample.profile 65 10000) (Sample.analysis "high") = Ok plan_old /\
    (Portfolio.share plan_old "stocks"
     <=? Portfolio.share plan_middle "stocks")%float = true /\
    (Portfolio.share plan_middle "stocks"
     <=? Portfolio.share plan_young "stocks")%float = true.
Proof.
  destruct (plan_shifts_with_age (py := Sample.py312) (Sample.analysis "high")
              (Sample.profile 30 10000) (Sample.profile 45 10000)
              (Sample.profile 65 10000))
    as (p1 & p2 & p3 & H1 & H2 & H3 & Hs1 & _ & Hs2 & _).
  - reflexivity.
  - split; discriminate.
  - reflexivity.
  - exists p1, p2, p3. repeat split; assumption.
Defined.

(** ** From a profile to an advice report *)

Section Pipeline.
Context {ext : Externals} {py : Interpreter}.


End Pipeline.

(** ** Descriptions *)

(** X4. A category gets the default description exactly when it is none of the
    seven the table knows. *)
Theorem description_defaults_for_unknown (category : string) :
  _get_category_description category = "Investment category" <->
  ~ In category
      [ "fixed_deposits"; "government_bonds"; "money_market_funds";
        "mutual_funds"; "etfs"; "stocks"; "crypto" ].
Proof.
  split.
  - intros Hdefault Hin. revert Hdefault.
    repeat (destruct Hin as [<- | Hin]; [vm_compute; discriminate |]).
    destruct Hin.
  - intros Hnotin. unfold _get_category_description.
    replace (get descriptions category) with (@None string); [reflexivity |].
    symmetry. apply get_none_iff. exact Hnotin.
Qed.

(** ** More on dictionaries *)

Module DictMore.

Section Facts.
Context {V : Type}.
Implicit Types (d : dict V) (k : string) (v : V).

Lemma in_keys_set d k k' v :
  In k' (keys (set d k v)) -> k' = k \/ In k' (keys d).
Proof.
  induction d as [| [k0 v0] d IH]; simpl.
  - intros [<- | []]. now left.
  - destruct (String.eqb k0 k) eqn:E; simpl.
    + tauto.
    + intros [<- | Hin]; [tauto |]. destruct (IH Hin); tauto.
Qed.

Lemma wf_set d k v : wf d -> wf (set d k v).
Proof.
  unfold wf. induction d as [| [k0 v0] d IH]; simpl; intros Hwf.
  - repeat constructor. intros [].
  - inversion Hwf as [| ? ? Hfresh Hrest]; subst.
    destruct (String.eqb k0 k) eqn:E; simpl.
    + now constructor.
    + constructor; [| now apply IH].
      intros Hin. apply in_keys_set in Hin as [-> | Hin]; [| contradiction].
      now rewrite String.eqb_refl in E.
Qed.

Lemma contains_in_keys d k : contains d k = true -> In k (keys d).
Proof.
  unfold contains. intros Hc.
  destruct (in_dec string_dec k (keys d)) as [Hin | Hnotin]; [exact Hin |].
  apply get_none_iff in Hnotin. now rewrite Hnotin in Hc.
Qed.

End Facts.

End DictMore.

Import DictMore.

(** ** The market data gateway, beyond the specification *)

Section GatewayShape.
Context {ext : Externals}.
Implicit Types (symbols : list string) (period s : string)
  (market_data : dict Quote).

Lemma fetch_symbol_keys market_data x period s :
  In s (keys (fetch_symbol market_data x period)) ->
  s = x \/ In s (keys market_data).
Proof.
  unfold fetch_symbol.
  destruct (try_quote x period) as [[q |] | e]; intros Hin;
    try apply in_keys_set in Hin; tauto.
Qed.

Lemma fetch_symbol_wf market_data x period :
  wf market_data -> wf (fetch_symbol market_data x period).
Proof.
  unfold fetch_symbol.
  destruct (try_quote x period) as [[q |] | e]; auto using wf_set.
Qed.

Lemma fetch_all_keys symbols period s :
  forall market_data,
    In s (keys (fetch_all symbols period market_data)) ->
    In s symbols \/ In s (keys market_data).
Proof.
  induction symbols as [| x rest IH]; intros market_data Hin; simpl in *.
  - now right.
  - destruct (IH _ Hin) as [Hrest | Hhere]; [tauto |].
    apply fetch_symbol_keys in Hhere. intuition auto.
Qed.

Lemma fetch_all_wf symbols period :
  forall market_data,
    wf market_data -> wf (fetch_all symbols period market_data).
Proof.
  induction symbols as [| x rest IH]; intros market_data Hwf; simpl.
  - exact Hwf.
  - apply IH. now apply fetch_symbol_wf.
Qed.

Lemma fetch_all_length symbols period :
  forall market_data,
    (List.length (fetch_all symbols period market_data)
     <= List.length market_data + List.length symbols)%nat.
Proof.
  induction symbols as [| x rest IH]; intros market_data; simpl; [lia |].
  specialize (IH (fetch_symbol market_data x period)).
  pose proof (length_fetch_symbol market_data x period). lia.
Qed.

Lemma fetch_all_succeeded symbols period s quote :
  try_quote s period = Ok (Some quote) -> In s symbols ->
  forall market_data,
    get (fetch_all symbols period market_data) s = Some quote.
Proof.
  intros Hquote. induction symbols as [| x rest IH]; intros Hin market_data.
  - destruct Hin.
  - simpl. destruct (in_dec string_dec s rest) as [Hrest | Hrest].
    + now apply IH.
    + destruct Hin as [-> | Hin]; [| contradiction].
      rewrite fetch_all_other by assumption.
      unfold fetch_symbol. rewrite Hquote. auto with pydict.
Qed.

(** X5. The result has entries for requested symbols only, each symbol at most
    once however often the batch names it, so never more entries than the
    batch has symbols; an empty batch gives the empty dictionary. *)
Theorem market_data_only_for_requested symbols period :
  (forall s, contains (get_market_data symbols period) s = true ->
             In s symbols) /\
  wf (get_market_data symbols period) /\
  (List.length (get_market_data symbols period) <= List.length symbols)%nat /\
  get_market_data [] period = [].
Proof.
  unfold get_market_data. repeat split.
  - intros s Hc. apply contains_in_keys in Hc.
    apply fetch_all_keys in Hc as [Hin | []]. exact Hin.
  - apply fetch_all_wf. constructor.
  - exact (fetch_all_length symbols period []).
Qed.

(** X6. In any batch, a symbol for which the [try] block builds a quote is
    mapped to that quote. *)
Theorem fetched_quote_is_returned symbols period s quote :
  In s symbols -> try_quote s period = Ok (Some quote) ->
  get (get_market_data symbols period) s = Some quote.
Proof.
  intros Hin Hquote. unfold get_market_data.
  now apply fetch_all_succeeded.
Qed.

(** X7. A history of a single bar: the change is [round(0.0, 2)], whatever the
    percentage change of the series would be; a missing volume is reported
    as 0; and a volume that [int] refuses costs the symbol its prices, for
    the record of zeros takes their place. *)
Theorem single_bar_quote symbols period s (bar : Bar) :
  In s symbols -> ticker_history s period = Ok [bar] ->
  get (get_market_data symbols period) s =
    Some
      match (if isna (Volume bar) then Ok 0 else int_of_float (Volume bar)) with
      | Ok vol =>
          {| current_price := Float (round2 (Close bar));
             change_percent := Float (round2 0);
             volume := Int vol;
             high_52w := Float (round2 (close_max [bar]));
             low_52w := Float (round2 (close_min [bar])) |}
      | Raise _ => zero_quote
      end.
Proof.
  intros Hin Hhist. unfold get_market_data.
  assert (Hzero : float_of_int 0 = 0%float) by (vm_compute; reflexivity).
  destruct (if isna (Volume bar) then Ok 0 else int_of_float (Volume bar))
    as [vol | e] eqn:Hvol.
  - apply fetch_all_succeeded; [| exact Hin].
    unfold try_quote. rewrite Hhist. cbn [bind iloc_last rev app].
    rewrite Hvol. cbn [bind List.length Z.of_nat Z.ltb Z.compare Pos.compare
                         Pos.compare_cont Pos.of_succ_nat to_float].
    now rewrite Hzero.
  - apply fetch_all_failed; [| exact Hin].
    unfold try_quote. rewrite Hhist. cbn [bind iloc_last rev app].
    now rewrite Hvol.
Qed.

Lemma fetch_all_nothing symbols period :
  (forall s, In s symbols -> try_quote s period = Ok None) ->
  forall market_data, fetch_all symbols period market_data = market_data.
Proof.
  induction symbols as [| x rest IH]; intros Hnone market_data; simpl.
  - reflexivity.
  - unfold fetch_symbol at 1. rewrite (Hnone x) by (simpl; auto).
    apply IH. intros s Hin. apply Hnone. simpl. auto.
Qed.

(** X25. The result is empty exactly when every symbol of the batch came
    back with an empty history and no exception: the "unable to fetch"
    branches of the dashboard and of the demo, which test the result for
    emptiness, are not taken when fetches raise, for then the result holds
    records of zeros. *)
Theorem market_data_empty_iff symbols period :
  get_market_data symbols period = [] <->
  (forall s, In s symbols -> try_quote s period = Ok None).
Proof.
  unfold get_market_data. split.
  - intros Hempty s Hin.
    destruct (try_quote s period) as [[quote |] | e] eqn:Hquote.
    + pose proof (fetch_all_succeeded symbols period s quote Hquote Hin [])
        as Hget.
      rewrite Hempty in Hget. discriminate.
    + reflexivity.
    + assert (Hfail : raises (try_quote s period) = true)
        by now rewrite Hquote.
      pose proof (fetch_all_failed symbols period s Hfail Hin []) as Hget.
      rewrite Hempty in Hget. discriminate.
  - intros Hnone. now apply fetch_all_nothing.
Qed.

End GatewayShape.

(** The quote of a symbol with two bars, in a batch that names it twice. *)
Lemma fetched_quote_is_returned_witness :
  get (get_market_data (ext := Sample.externals 0.5)
         ["AAPL"; "FAIL"; "AAPL"] "1mo") "AAPL" =
    Some {| current_price := Float 103.25; change_percent := Float 0;
            volume := Int 0; high_52w := Float 103.25;
            low_52w := Float 101.5 |}.
Proof.
  apply (fetched_quote_is_returned (ext := Sample.externals 0.5)).
  - simpl. auto.
  - reflexivity.
Defined.

(** A single bar without a volume. *)
Lemma single_bar_quote_witness :
  get (get_market_data (ext := Fixture.young_market) ["NEW"] "1mo") "NEW" =
    Some {| current_price := Float 12.5; change_percent := Float 0;
            volume := Int 0; high_52w := Float 12.5;
            low_52w := Float 12.5 |}.
Proof.
  apply (eq_trans
           (single_bar_quote (ext := Fixture.young_market)
              ["NEW"] "1mo" "NEW" Fixture.lone_bar
              (or_introl eq_refl) eq_refl)).
  reflexivity.
Defined.

(** ** The account store, beyond the specification *)

Section StoreShape.
Context {hl : Hashlib}.
Implicit Types (db : Db) (u p : string) (e : option string) (now : Z).

Lemma id_below_next db r : In r (users db) -> id r < next_id db.
Proof.
  unfold next_id. generalize (users_seq db) as seq.
  induction (users db) as [| r0 rows IH]; intros seq Hin; [destruct Hin |].
  simpl. destruct Hin as [-> | Hin]; [lia |].
  specialize (IH seq Hin). lia.
Qed.

Lemma find_map {A B : Type} (f : A -> B) (test : B -> bool) (l : list A) :
  find test (map f l) = option_map f (find (fun x => test (f x)) l).
Proof.
  induction l as [| x l IH]; simpl; [reflexivity |].
  now destruct (test (f x)).
Qed.

Lemma find_pointwise {A : Type} (f g : A -> bool) (l : list A) :
  (forall x, f x = g x) -> find f l = find g l.
Proof.
  intros Heq. induction l as [| x l IH]; simpl; [reflexivity |].
  now rewrite Heq, IH.
Qed.

Lemma nodup_map_injective {A B : Type} (f : A -> B) (l : list A) (a b : A) :
  NoDup (map f l) -> In a l -> In b l -> f a = f b -> a = b.
Proof.
  induction l as [| x l IH]; simpl; intros Hnd Ha Hb Hf; [destruct Ha |].
  inversion Hnd as [| ? ? Hfresh Hrest]; subst.
  destruct Ha as [-> | Ha], Hb as [-> | Hb]; auto.
  - elim Hfresh. rewrite Hf. now apply in_map.
  - elim Hfresh. rewrite <- Hf. now apply in_map.
Qed.

Lemma nodup_snoc {A : Type} (l : list A) (x : A) :
  NoDup l -> ~ In x l -> NoDup (l ++ [x]).
Proof.
  intros Hnd Hfresh.
  apply (Permutation_NoDup (Permutation_cons_append l x)).
  now constructor.
Qed.

(** The stamp [authenticate_user] puts on the rows of id [i]. *)
Lemma stamp_keeps_account db now i :
  Store.accounts (update_last_login db now i) = Store.accounts db.
Proof.
  unfold Store.accounts, update_last_login. cbn [users].
  rewrite map_map. apply map_ext. intros r.
  now destruct (Z.eqb (id r) i).
Qed.

Lemma accounts_names db db' :
  Store.accounts db' = Store.accounts db ->
  map username (users db') = map username (users db) /\
  map id (users db') = map id (users db).
Proof.
  unfold Store.accounts. intros Heq. split.
  - apply (f_equal (map (fun a => snd (fst (fst (fst a)))))) in Heq.
    now rewrite !map_map in Heq.
  - apply (f_equal (map (fun a => fst (fst (fst (fst a)))))) in Heq.
    now rewrite !map_map in Heq.
Qed.

Lemma register_consistent db now u p e :
  Store.consistent db -> Store.consistent (fst (register_user db now u p e)).
Proof.
  intros [Hnames Hids].
  destruct (select_by_username db u) as [row |] eqn:Hsel.
  - now rewrite (register_known _ _ _ _ _ _ Hsel).
  - rewrite (register_fresh _ _ _ _ _ Hsel). unfold Store.consistent.
    cbn [fst users]. rewrite !map_app. cbn [map username id].
    split; apply nodup_snoc; trivial.
    + intros Hin. apply in_map_iff in Hin as (r & Hname & Hr).
      unfold select_by_username in Hsel.
      apply (find_none _ _ Hsel) in Hr.
      apply String.eqb_neq in Hr. contradiction.
    + intros Hin. apply in_map_iff in Hin as (r & Hid & Hr).
      apply id_below_next in Hr. lia.
Qed.

Lemma authenticate_accounts db now u p :
  Store.accounts (fst (authenticate_user db now u p)) = Store.accounts db.
Proof.
  unfold authenticate_user.
  destruct (select_by_credentials db u (hash_password p)); cbn [fst];
    [apply stamp_keeps_account | reflexivity].
Qed.

Lemma authenticate_consistent db now u p :
  Store.consistent db -> Store.consistent (fst (authenticate_user db now u p)).
Proof.
  intros [Hnames Hids].
  destruct (accounts_names _ _ (authenticate_accounts db now u p)) as [Hn Hi].
  unfold Store.consistent. now rewrite Hn, Hi.
Qed.

Lemma handle_consistent db (r : AuthTrace.request) :
  Store.consistent db -> Store.consistent (AuthTrace.handle db r).
Proof.
  destruct r; simpl;
    [apply register_consistent | apply authenticate_consistent].
Qed.

Lemma run_consistent (requests : list AuthTrace.request) :
  Store.consistent (AuthTrace.run requests).
Proof.
  unfold AuthTrace.run.
  assert (Hfrom : forall db, Store.consistent db ->
                    Store.consistent (fold_left AuthTrace.handle requests db)).
  { induction requests as [| r rest IH]; intros db Hdb; simpl; [exact Hdb |].
    apply IH. now apply handle_consistent. }
  apply Hfrom. split; constructor.
Qed.

(** X8. Whatever registrations and logins a fresh store has served, in whatever
    order and with whatever outcome, no two of its rows share a name and no
    two share an id. *)
Theorem store_stays_consistent (requests : list AuthTrace.request) :
  NoDup (map username (users (AuthTrace.run requests))) /\
  NoDup (map id (users (AuthTrace.run requests))).
Proof. exact (run_consistent requests). Qed.

(** X9. Registering one name changes nothing for another: a login under a
    different name has the same outcome after the registration as before
    it. *)
Theorem registration_leaves_other_logins db now now' u p u' p' e' :
  u <> u' ->
  snd (authenticate_user (fst (register_user db now u' p' e')) now' u p) =
  snd (authenticate_user db now' u p).
Proof.
  intros Hdiff.
  destruct (select_by_username db u') as [row |] eqn:Hsel.
  - now rewrite (register_known _ _ _ _ _ _ Hsel).
  - rewrite (register_fresh _ _ _ _ _ Hsel).
    unfold authenticate_user, select_by_credentials. cbn [fst users].
    rewrite find_append.
    destruct (find _ (users db)) as [r |]; [reflexivity |].
    cbn [find username password_hash].
    replace (String.eqb u' u) with false; [reflexivity |].
    symmetry. apply String.eqb_neq. congruence.
Qed.

(** X10. A login that succeeded succeeds again: the stamp it leaves on the row
    does not stand in the way, and the second login names the same
    account. *)
Theorem login_is_repeatable db now now' u p db1 who :
  authenticate_user db now u p = (db1, (true, who)) ->
  snd (authenticate_user db1 now' u p) = (true, who).
Proof.
  unfold authenticate_user, select_by_credentials.
  destruct (find _ (users db)) as [r |] eqn:Hfind; [| discriminate].
  intros Hres. injection Hres as <- <-.
  unfold update_last_login at 1. cbn [users]. rewrite find_map.
  erewrite find_pointwise.
  - rewrite Hfind. cbn [option_map snd].
    now destruct (Z.eqb (id r) (id r)).
  - intros r0. now destruct (Z.eqb (id r0) (id r)).
Qed.

(** X11. [authenticate_user] never adds, drops or edits an account: ids, names,
    hashes, emails and creation times are after the call what they were
    before.  It succeeds only on a row of that name that carries the hash of
    the password, and names that row; when it fails it leaves the store
    untouched and gives the one generic reason. *)
Theorem login_is_sound db now u p :
  Store.accounts (fst (authenticate_user db now u p)) = Store.accounts db /\
  (fst (snd (authenticate_user db now u p)) = true ->
   exists r,
     In r (users db) /\ username r = u /\
     password_hash r = hash_password p /\
     snd (snd (authenticate_user db now u p)) = User (id r) u (email r)) /\
  (fst (snd (authenticate_user db now u p)) = false ->
   authenticate_user db now u p =
     (db, (false, Message "Invalid username or password"))).
Proof.
  split; [apply authenticate_accounts |].
  unfold authenticate_user, select_by_credentials.
  destruct (find _ (users db)) as [r |] eqn:Hfind; cbn [fst snd]; split;
    try discriminate; try reflexivity.
  intros _. apply find_some in Hfind as [Hin Htest].
  apply andb_true_iff in Htest as [Hname Hhash].
  apply String.eqb_eq in Hname, Hhash.
  exists r. subst u. auto.
Qed.

(** X12. On a store that grew from the empty one, a successful login stamps the
    row of that user with the time of the login and leaves every row of
    another name as it was. *)
Theorem login_stamps_one_row (requests : list AuthTrace.request) now u p
  db1 who :
  authenticate_user (AuthTrace.run requests) now u p = (db1, (true, who)) ->
  (exists r, In r (users db1) /\ username r = u /\ last_login r = Some now) /\
  (forall r, In r (users (AuthTrace.run requests)) -> username r <> u ->
             In r (users db1)).
Proof.
  destruct (run_consistent requests) as [_ Hids].
  set (db := AuthTrace.run requests) in *.
  unfold authenticate_user, select_by_credentials.
  destruct (find _ (users db)) as [r0 |] eqn:Hfind; [| discriminate].
  intros Hres. injection Hres as <- _.
  apply find_some in Hfind as [Hin0 Htest].
  apply andb_true_iff in Htest as [Hname _]. apply String.eqb_eq in Hname.
  unfold update_last_login. cbn [users]. split.
  - eexists. split.
    + apply in_map_iff. exists r0. split; [reflexivity | exact Hin0].
    + rewrite Z.eqb_refl. cbn [username last_login]. auto.
  - intros r Hin Hother. apply in_map_iff. exists r. split; [| exact Hin].
    destruct (Z.eqb (id r) (id r0)) eqn:E; [| reflexivity].
    apply Z.eqb_eq in E.
    rewrite (nodup_map_injective id _ r r0 Hids Hin Hin0 E) in Hother.
    contradiction.
Qed.

End StoreShape.

(** A login of ["alice"] around the registration of ["bob"]. *)
Lemma registration_leaves_other_logins_witness :
  let db1 :=
    fst (register_user (hl := Sample.hashlib) empty_db 100
           "alice" "s3cret" None) in
  snd (authenticate_user (hl := Sample.hashlib)
         (fst (register_user (hl := Sample.hashlib) db1 200 "bob" "pw" None))
         300 "alice" "s3cret") =
    (true, User 1 "alice" None).
Proof.
  intros db1.
  rewrite (registration_leaves_other_logins (hl := Sample.hashlib)
             db1 200 300 "alice" "s3cret" "bob" "pw" None).
  - reflexivity.
  - discriminate.
Defined.

(** Two logins of ["alice"] in a row. *)
Lemma login_is_repeatable_witness :
  let db1 :=
    fst (register_user (hl := Sample.hashlib) empty_db 100
           "alice" "s3cret" None) in
  snd (authenticate_user (hl := Sample.hashlib)
         (fst (authenticate_user (hl := Sample.hashlib) db1 300
                 "alice" "s3cret"))
         400 "alice" "s3cret") =
    (true, User 1 "alice" None).
Proof.
  intros db1.
  apply (login_is_repeatable (hl := Sample.hashlib) db1 300 400
           "alice" "s3cret").
  reflexivity.
Defined.

(** A login of ["alice"] on a store that also holds ["bob"]. *)
Lemma login_stamps_one_row_witness :
  let requests :=
    [ AuthTrace.Register 100 "alice" "s3cret" None;
      AuthTrace.Register 150 "bob" "pw" None ] in
  let db1 :=
    fst (authenticate_user (hl := Sample.hashlib)
           (AuthTrace.run (hl := Sample.hashlib) requests)
           300 "alice" "s3cret") in
  (exists r, In r (users db1) /\ username r = "alice" /\
             last_login r = Some 300) /\
  In {| id := 2; username := "bob";
        password_hash := Sample.reverse "pw"; email := None;
        created_at := 150; last_login := None |} (users db1).
Proof.
  intros requests db1.
  destruct (login_stamps_one_row (hl := Sample.hashlib) requests 300
              "alice" "s3cret" db1 (User 1 "alice" None) eq_refl)
    as [Hstamp Hothers].
  split; [exact Hstamp |].
  apply Hothers.
  - right. left. reflexivity.
  - discriminate.
Defined.

(** ** The session table *)

Section SessionTable.
Context {Data : Type} {js : Json Data} {qe : AuthSessions.QueryEngine}.
Implicit Types (t : AuthSessions.Table) (r : AuthSessions.SessionRow).

Import AuthSessions.

Lemma session_id_bound t r :
  In r (sessions t) -> AuthSessions.id r < AuthSessions.next_id t.
Proof.
  unfold AuthSessions.next_id. generalize (sessions_seq t) as seq.
  induction (sessions t) as [| r0 rows IH]; intros seq Hin; [destruct Hin |].
  simpl. destruct Hin as [-> | Hin]; [lia |].
  specialize (IH seq Hin). lia.
Qed.

Lemma next_id_well_numbered t :
  Store.well_numbered t -> AuthSessions.next_id t = sessions_seq t + 1.
Proof.
  intros [_ Hbound]. unfold AuthSessions.next_id. f_equal.
  induction Hbound as [| r rows Hr _ IH]; simpl; lia.
Qed.

Lemma in_listing t uid x :
  lawful qe ->
  In x (get_user_sessions t uid) <->
  exists r, In r (sessions t) /\ user_id r = uid /\
            x = (AuthSessions.id r, session_data r, AuthSessions.created_at r).
Proof.
  intros [Hperm _]. unfold get_user_sessions. rewrite in_map_iff. split.
  - intros (r & <- & Hin).
    apply (Permutation_in _ (Permutation_sym (Hperm _))) in Hin.
    apply filter_In in Hin as [Hin Howned].
    apply Z.eqb_eq in Howned. eauto.
  - intros (r & Hin & Huid & ->). exists r. split; [reflexivity |].
    apply (Permutation_in _ (Hperm _)). apply filter_In. split; [exact Hin |].
    now apply Z.eqb_eq.
Qed.

(** X13. A session saved with a timestamp later than every session the user has
    is the one [load_session] gives back, provided the JSON codec returns the
    bundle it was given. *)
Theorem saved_session_is_loaded t now uid (data : Data) text :
  lawful qe ->
  json_dumps data = Ok text -> json_loads text = Ok data ->
  (forall r, In r (sessions t) -> user_id r = uid ->
             AuthSessions.created_at r < now) ->
  snd (save_session t now uid data) = true /\
  load_session (fst (save_session t now uid data)) uid = Some data.
Proof.
  intros [Hperm Hsorted] Hdumps Hloads Hlatest.
  unfold save_session, load_session. rewrite Hdumps. cbn [fst snd sessions].
  split; [reflexivity |].
  set (new := {| AuthSessions.id := AuthSessions.next_id t; user_id := uid;
                 session_data := text; AuthSessions.created_at := now |}).
  assert (Hown : owned_by uid new = true) by apply Z.eqb_refl.
  rewrite filter_app. cbn [filter]. rewrite Hown.
  set (rows := (filter (owned_by uid) (sessions t) ++ [new])%list).
  specialize (Hperm rows). specialize (Hsorted rows).
  assert (Hnew : In new (order_by_created_at_desc rows)).
  { apply (Permutation_in _ Hperm). apply in_or_app. right. now left. }
  destruct (order_by_created_at_desc rows) as [| first rest]; [destruct Hnew |].
  assert (Hfirst : first = new).
  { assert (Hin : In first rows)
      by (apply (Permutation_in _ (Permutation_sym Hperm)); now left).
    apply in_app_or in Hin as [Hold | [Heq | []]]; [| now symmetry].
    apply filter_In in Hold as [Hold Howned]. apply Z.eqb_eq in Howned.
    specialize (Hlatest first Hold Howned).
    destruct Hnew as [Heq | Hrest]; [exact Heq |].
    apply StronglySorted_inv in Hsorted as [_ Hall].
    rewrite Forall_forall in Hall. specialize (Hall new Hrest).
    cbn [AuthSessions.created_at] in Hall. subst new. simpl in Hall. lia. }
  rewrite Hfirst. unfold new. cbn [session_data]. now rewrite Hloads.
Qed.

(** X14. [get_user_sessions] lists the sessions of the user it is asked for, all
    of them and no other; and a session saved for one user leaves the
    listing of every other user as it was. *)
Theorem sessions_are_per_user t now uid uid' (data : Data) :
  lawful qe ->
  (forall x,
      In x (get_user_sessions t uid) <->
      exists r, In r (sessions t) /\ user_id r = uid /\
                x = (AuthSessions.id r, session_data r,
                     AuthSessions.created_at r)) /\
  (uid <> uid' ->
   get_user_sessions (fst (save_session t now uid data)) uid' =
   get_user_sessions t uid').
Proof.
  intros Hlaw. split; [intros x; now apply in_listing |].
  intros Hdiff. unfold save_session, get_user_sessions.
  destruct (json_dumps data) as [text | e]; cbn [fst sessions]; [| reflexivity].
  rewrite filter_app. cbn [filter].
  match goal with
  | |- context [owned_by uid' ?row] =>
      assert (Hown : owned_by uid' row = false) by now apply Z.eqb_neq
  end.
  now rewrite Hown, app_nil_r.
Qed.

(** X15. [delete_session] answers [True] whether or not a session of that id
    exists; afterwards no user's listing shows that id, every other session
    is listed as before, and a call with an id the table does not hold
    changes nothing.  The id alone decides: the function takes no user. *)
Theorem deleted_session_is_gone t sid uid :
  lawful qe ->
  snd (delete_session t sid) = true /\
  (forall x,
      In x (get_user_sessions (fst (delete_session t sid)) uid) <->
      exists r, In r (sessions t) /\ user_id r = uid /\
                AuthSessions.id r <> sid /\
                x = (AuthSessions.id r, session_data r,
                     AuthSessions.created_at r)) /\
  ((forall r, In r (sessions t) -> AuthSessions.id r <> sid) ->
   fst (delete_session t sid) = t).
Proof.
  intros Hlaw. split; [reflexivity |]. split.
  - intros x. rewrite (in_listing _ uid x Hlaw).
    unfold delete_session. cbn [fst sessions]. split.
    + intros (r & Hin & Huid & ->). apply filter_In in Hin as [Hin Hkeep].
      apply negb_true_iff, Z.eqb_neq in Hkeep. eauto 6.
    + intros (r & Hin & Huid & Hid & ->). exists r. repeat split; trivial.
      apply filter_In. split; [exact Hin |].
      now apply negb_true_iff, Z.eqb_neq.
  - intros Hnone. unfold delete_session. cbn [fst].
    destruct t as [rows seq]. cbn [sessions sessions_seq] in *. f_equal.
    induction rows as [| r rows IH]; simpl; [reflexivity |].
    replace (Z.eqb (AuthSessions.id r) sid) with false
      by (symmetry; apply Z.eqb_neq, Hnone; now left).
    simpl. f_equal. apply IH. intros r' Hin. apply Hnone. now right.
Qed.

Lemma apply_call_numbering t (c : call) :
  Store.well_numbered t ->
  Store.well_numbered (apply_call t c) /\
  sessions_seq t <= sessions_seq (apply_call t c) /\
  (forall r, In r (sessions (apply_call t c)) ->
             In r (sessions t) \/ sessions_seq t < AuthSessions.id r).
Proof.
  intros Hwn. pose proof (next_id_well_numbered t Hwn) as Hnext.
  destruct Hwn as [Hnd Hbound]. unfold Store.well_numbered.
  destruct c as [now uid data | sid]; simpl.
  - unfold save_session. destruct (json_dumps data) as [text | e];
      cbn [fst sessions sessions_seq]; [| repeat split; trivial; [lia | tauto]].
    rewrite Hnext. split; [split |]; [| | split].
    + rewrite map_app. cbn [map AuthSessions.id].
      apply (Permutation_NoDup (Permutation_cons_append _ _)).
      constructor; [| exact Hnd].
      intros Hin. apply in_map_iff in Hin as (r & Hid & Hr).
      rewrite Forall_forall in Hbound. specialize (Hbound r Hr). lia.
    + apply Forall_app. split.
      * eapply Forall_impl; [| exact Hbound]. intros r Hr. simpl in Hr. lia.
      * repeat constructor. cbn [AuthSessions.id]. lia.
    + lia.
    + intros r Hin. apply in_app_or in Hin as [Hold | [<- | []]];
        [now left | right; cbn [AuthSessions.id]; lia].
  - split; [split |]; [| | split].
    + clear Hbound Hnext. induction (sessions t) as [| r rows IH]; simpl;
        [constructor |].
      inversion Hnd as [| ? ? Hfresh Hrest]; subst.
      destruct (negb (Z.eqb (AuthSessions.id r) sid)); [| now apply IH].
      simpl. constructor; [| now apply IH].
      intros Hin. apply Hfresh. apply in_map_iff in Hin as (r' & Hid & Hr').
      apply filter_In in Hr' as [Hr' _]. apply in_map_iff. eauto.
    + rewrite Forall_forall in *. intros r Hin.
      apply filter_In in Hin as [Hin _]. now apply Hbound.
    + lia.
    + intros r Hin. apply filter_In in Hin as [Hin _]. now left.
Qed.

Lemma calls_numbering (calls : list call) :
  forall t,
    Store.well_numbered t ->
    Store.well_numbered (fold_left apply_call calls t) /\
    sessions_seq t <= sessions_seq (fold_left apply_call calls t) /\
    (forall r, In r (sessions (fold_left apply_call calls t)) ->
               In r (sessions t) \/ sessions_seq t < AuthSessions.id r).
Proof.
  induction calls as [| c rest IH]; intros t Hwn; simpl.
  - split; [exact Hwn | split; [lia | tauto]].
  - destruct (apply_call_numbering t c Hwn) as (Hwn1 & Hseq1 & Hrows1).
    destruct (IH _ Hwn1) as (Hwn2 & Hseq2 & Hrows2).
    split; [exact Hwn2 | split; [lia |]].
    intros r Hin. destruct (Hrows2 r Hin) as [Hold | Hnew]; [| right; lia].
    destruct (Hrows1 r Hold); [now left | right; lia].
Qed.

(** X16. Session ids are handed out once.  After any sequence of saves and
    deletes on a fresh table the ids in the table are distinct and none is
    beyond the counter; and whatever calls follow, a row found later is
    either a row that was already there or carries an id beyond the counter
    of that moment, so the id of a deleted session never comes back. *)
Theorem session_ids_are_never_reused (before after : list call) :
  NoDup (map AuthSessions.id (sessions (run_calls before))) /\
  Forall (fun r => AuthSessions.id r <= sessions_seq (run_calls before))
    (sessions (run_calls before)) /\
  (forall r, In r (sessions (run_calls (before ++ after))) ->
             In r (sessions (run_calls before)) \/
             sessions_seq (run_calls before) < AuthSessions.id r).
Proof.
  assert (Hempty : Store.well_numbered empty_table)
    by (split; constructor).
  destruct (calls_numbering before empty_table Hempty) as ([Hnd Hb] & _ & _).
  repeat split; trivial.
  unfold run_calls. rewrite fold_left_app.
  apply calls_numbering. now split.
Qed.

End SessionTable.

(** The insertion sort of the sample engine is a lawful [ORDER BY]. *)
Lemma insert_latest_first_perm r rows :
  Permutation (r :: rows) (Fixture.insert_latest_first r rows).
Proof.
  induction rows as [| r' rest IH]; simpl; [reflexivity |].
  destruct (AuthSessions.created_at r <? AuthSessions.created_at r');
    [| reflexivity].
  rewrite perm_swap. now apply perm_skip.
Qed.

Lemma insert_latest_first_sorted r rows :
  StronglySorted
    (fun r1 r2 => AuthSessions.created_at r2 <= AuthSessions.created_at r1)
    rows ->
  StronglySorted
    (fun r1 r2 => AuthSessions.created_at r2 <= AuthSessions.created_at r1)
    (Fixture.insert_latest_first r rows).
Proof.
  induction rows as [| r' rest IH]; simpl; intros Hsorted.
  - repeat constructor.
  - apply StronglySorted_inv in Hsorted as [Hrest Hall].
    destruct (AuthSessions.created_at r <? AuthSessions.created_at r') eqn:E.
    + apply Z.ltb_lt in E. constructor; [now apply IH |].
      rewrite Forall_forall in *. intros x Hx.
      apply (Permutation_in _ (Permutation_sym (insert_latest_first_perm r rest)))
        in Hx.
      destruct Hx as [<- | Hx]; [lia | now apply Hall].
    + apply Z.ltb_ge in E. constructor; [now constructor |].
      constructor; [exact E |].
      rewrite Forall_forall in *. intros x Hx. specialize (Hall x Hx). lia.
Qed.

Lemma fixture_engine_lawful : AuthSessions.lawful Fixture.engine.
Proof.
  split; intros rows; cbn [AuthSessions.order_by_created_at_desc Fixture.engine];
    induction rows as [| r rest IH]; simpl; try constructor.
  - rewrite <- insert_latest_first_perm. now apply perm_skip.
  - now apply insert_latest_first_sorted.
Qed.

(** Two sessions of user 7, the second saved later. *)
Lemma saved_session_is_loaded_witness :
  let t :=
    fst (AuthSessions.save_session (js := Fixture.json) AuthSessions.empty_table
           100 7 "first") in
  AuthSessions.load_session (js := Fixture.json) (qe := Fixture.engine)
    (fst (AuthSessions.save_session (js := Fixture.json) t 200 7 "second")) 7 =
    Some "second".
Proof.
  intros t.
  apply (saved_session_is_loaded (js := Fixture.json) (qe := Fixture.engine)
           t 200 7 "second" "{second}" fixture_engine_lawful eq_refl eq_refl).
  intros r [<- | []] _. reflexivity.
Defined.

(** A session of user 8 seen before and after user 7 saves one. *)
Lemma sessions_are_per_user_witness :
  let t :=
    fst (AuthSessions.save_session (js := Fixture.json) AuthSessions.empty_table
           100 8 "theirs") in
  AuthSessions.get_user_sessions (qe := Fixture.engine)
    (fst (AuthSessions.save_session (js := Fixture.json) t 200 7 "mine")) 8 =
    [(1, "{theirs}", 100)].
Proof.
  intros t.
  destruct (sessions_are_per_user (js := Fixture.json) (qe := Fixture.engine)
              t 200 7 8 "mine" fixture_engine_lawful) as [_ Hother].
  rewrite Hother; [reflexivity | discriminate].
Defined.

(** Two sessions of user 7; the first is deleted, then an id that is not
    there. *)
Lemma deleted_session_is_gone_witness :
  let t1 :=
    fst (AuthSessions.save_session (js := Fixture.json) AuthSessions.empty_table
           100 7 "first") in
  let t2 := fst (AuthSessions.save_session (js := Fixture.json) t1 200 7 "second") in
  In (2, "{second}", 200)
    (AuthSessions.get_user_sessions (qe := Fixture.engine)
       (fst (AuthSessions.delete_session t2 1)) 7) /\
  AuthSessions.delete_session t2 5 = (t2, true).
Proof.
  intros t1 t2.
  destruct (deleted_session_is_gone (qe := Fixture.engine) t2 1 7
              fixture_engine_lawful) as [_ [Hlisted _]].
  destruct (deleted_session_is_gone (qe := Fixture.engine) t2 5 7
              fixture_engine_lawful) as [Hflag [_ Hnoop]].
  split.
  - apply Hlisted. eexists. split; [right; left; reflexivity |].
    repeat split. discriminate.
  - rewrite (surjective_pairing (AuthSessions.delete_session t2 5)).
    rewrite Hflag, Hnoop; [reflexivity |].
    intros r [<- | [<- | []]]; discriminate.
Defined.

(** ** Charts *)

Import InvestmentVisualizer.

Section PieChart.
Context {lb : Labels}.

Lemma fold_add_slice (items : dict App.category_data) :
  forall categories percentages colors,
    fold_left add_slice items (categories, percentages, colors) =
    ((categories
      ++ map (fun kv => category_label (fst kv)) (Display.shown items))%list,
     (percentages
      ++ map (fun kv => Display.size_of (snd kv)) (Display.shown items))%list,
     (colors ++ map (fun kv => color_of (fst kv)) (Display.shown items))%list).
Proof.
  induction items as [| [category data] rest IH];
    intros categories percentages colors; simpl.
  - now rewrite !app_nil_r.
  - destruct data as [x | e]; simpl;
      match goal with
      | |- context [(0 <? ?v)%float] => destruct (0 <? v)%float
      end;
      rewrite IH; simpl; now rewrite <- ?app_assoc.
Qed.

(** X17. [create_pie_chart] shows the items of a size above zero, fractions and
    breakdown entries alike, in the order of the dictionary and with three
    lists that run in parallel; an empty dictionary and one without such an
    item each get their own placeholder. *)
Theorem pie_chart_shows_positive_items
  (allocation_data : dict App.category_data) :
  create_pie_chart allocation_data =
    match allocation_data with
    | [] => Annotation "No allocation data available"
    | _ :: _ =>
        match Display.shown allocation_data with
        | [] => Annotation "No valid allocation data"
        | items =>
            Pie (map (fun kv => category_label (fst kv)) items)
              (map (fun kv => Display.size_of (snd kv)) items)
              (map (fun kv => color_of (fst kv)) items)
        end
    end.
Proof.
  unfold create_pie_chart.
  destruct allocation_data as [| item rest]; [reflexivity |].
  rewrite fold_add_slice. cbn [app].
  now destruct (Display.shown (item :: rest)).
Qed.

Context {py : Interpreter}.

(** X18. The pie of a plan of the engine, as the dashboard draws it: one slice
    for each category the plan funds, sized by its fraction, and each in a
    colour of its own from the palette, never the grey of an unknown
    category. *)
Theorem pie_chart_of_a_plan (user_data : UserData)
  (analysis_result : AnalysisResult) :
  exists plan labels values marker_colors,
    calculate_investment_allocation user_data analysis_result = Ok plan /\
    create_pie_chart (App.plan_data plan) = Pie labels values marker_colors /\
    labels = map category_label (keys (Portfolio.funded plan)) /\
    values = Py.values (Portfolio.funded plan) /\
    forallb (fun c => negb (String.eqb c "#808080")) marker_colors = true.
Proof.
  engine_cases py user_data analysis_result;
    match goal with
    | |- exists _ _ _ _, ?lhs = Ok _ /\ _ =>
        let v := eval vm_compute in lhs in
        match v with
        | Ok ?plan => exists plan
        end
    end;
    match goal with
    | |- exists _ _ _, _ /\ ?lhs = _ /\ _ =>
        let v := eval vm_compute in lhs in
        match v with
        | Pie ?labels ?values ?marker_colors =>
            exists labels, values, marker_colors
        end
    end;
    repeat split; vm_compute; reflexivity.
Qed.

End PieChart.

(** X19. The label [_get_age_range] gives an age is one of the six on the x axis
    of the chart, for every integer; the bands are 18-25 up to and including
    25 (and every age below 18), then ten years each up to and including 65,
    and 65+ from 66 on. *)
Theorem age_range_is_on_the_axis (age : Z) :
  In (_get_age_range age) age_ranges /\
  (_get_age_range age = "18-25" <-> age <= 25) /\
  (_get_age_range age = "26-35" <-> 26 <= age <= 35) /\
  (_get_age_range age = "36-45" <-> 36 <= age <= 45) /\
  (_get_age_range age = "46-55" <-> 46 <= age <= 55) /\
  (_get_age_range age = "56-65" <-> 56 <= age <= 65) /\
  (_get_age_range age = "65+" <-> 66 <= age).
Proof.
  unfold _get_age_range, age_ranges.
  destruct (age <=? 25) eqn:E1;
    [| destruct (age <=? 35) eqn:E2;
       [| destruct (age <=? 45) eqn:E3;
          [| destruct (age <=? 55) eqn:E4;
             [| destruct (age <=? 65) eqn:E5]]]];
    repeat match goal with
           | H : (_ <=? _) = true |- _ => apply Z.leb_le in H
           | H : (_ <=? _) = false |- _ => apply Z.leb_gt in H
           end;
    (split; [simpl; tauto |]);
    repeat split; intros; try discriminate; try lia; reflexivity.
Qed.

(** ** Reports and tables fed with a plan *)

Section Consumers.
Context {py : Interpreter}.

(** X20. The report generators and the demo read [data['percentage']] under each
    category, which a plan of the engine does not have: handed the plan, as
    the reports page and the demo hand it, the allocation table of the full
    report, the ranking of the quick summary and the loop of the demo each
    stop at the first category with a [TypeError], for every profile. *)
Theorem reports_reject_a_plan (user_data : UserData)
  (analysis_result : AnalysisResult) :
  exists plan,
    calculate_investment_allocation user_data analysis_result = Ok plan /\
    Reports.investment_report_rows (App.plan_data plan) =
      Reports.TypeError "'float' object is not subscriptable" /\
    Reports.simple_report_rows (App.plan_data plan) =
      Reports.TypeError "'float' object is not subscriptable" /\
    Reports.demo_printed (App.plan_data plan) =
      Reports.TypeError "'float' object is not subscriptable".
Proof.
  engine_cases py user_data analysis_result; exists_plan;
    repeat split; vm_compute; reflexivity.
Qed.

End Consumers.

(** X21. The allocation table of the analysis page keeps dictionary entries only,
    so on a plan, whose values are fractions, it has no row, and the page
    reports that no allocation data is available. *)
Theorem allocation_table_skips_a_plan (plan : dict float) :
  App.allocation_table_rows (App.plan_data plan) = [].
Proof.
  induction plan as [| [category x] rest IH]; [reflexivity |].
  exact IH.
Qed.

Section Summary.
Context {ext : Externals} {py : Interpreter}.


End Summary.

(** ** A score that is not a number *)

Module FloatNaN.

Lemma SFcompare_refl (x : spec_float) :
  x <> S754_nan -> SFcompare x x = Some Eq.
Proof.
  destruct x as [s | s | | s m e]; intros Hx; simpl;
    try (now destruct s); [now elim Hx |].
  rewrite Z.compare_refl.
  replace (PosDef.Pos.compare_cont Eq m m) with Eq
    by (symmetry; exact (Pos.compare_cont_refl m Eq)).
  now destruct s.
Qed.

Lemma isna_spec (r : float) : isna r = true -> Prim2SF r = S754_nan.
Proof.
  unfold isna. rewrite FloatAxioms.eqb_spec. unfold SFeqb. intros Hna.
  destruct (Prim2SF r) as [s | s | | s m e] eqn:E; try reflexivity;
    rewrite SFcompare_refl in Hna by discriminate; discriminate.
Qed.

Lemma nan_not_below (r x : float) : isna r = true -> (r <? x)%float = false.
Proof.
  intros Hna. rewrite FloatAxioms.ltb_spec, (isna_spec r Hna). reflexivity.
Qed.

End FloatNaN.

Section NaNScore.
Context {ext : Externals}.

(** X23. When the fitted model answers with a NaN, both comparisons of the
    classification fail and the profile is filed under high risk. *)
Theorem nan_score_is_high_risk (user_data : UserData) :
  isna (risk_score (analyze_user_profile user_data)) = true ->
  risk_category (analyze_user_profile user_data) = "high".
Proof.
  unfold analyze_user_profile. cbn [risk_score risk_category].
  intros Hna. now rewrite !(FloatNaN.nan_not_below _ _ Hna).
Qed.

End NaNScore.

Lemma nan_score_is_high_risk_witness :
  risk_category
    (analyze_user_profile (ext := Sample.externals nan)
       (Sample.profile 30 10000)) = "high".
Proof.
  apply (nan_score_is_high_risk (ext := Sample.externals nan)).
  reflexivity.
Defined.

(** ** Accounts are only ever added *)

Section AppendOnly.
Context {hl : Hashlib}.

Lemma handle_appends (db : Db) (r : AuthTrace.request) :
  exists extra,
    Store.accounts (AuthTrace.handle db r) = (Store.accounts db ++ extra)%list.
Proof.
  destruct r as [now u p e | now u p]; simpl.
  - destruct (select_by_username db u) as [row |] eqn:Hsel.
    + rewrite (register_known _ _ _ _ _ _ Hsel). exists []. simpl.
      now rewrite app_nil_r.
    + rewrite (register_fresh _ _ _ _ _ Hsel). unfold Store.accounts.
      cbn [fst users]. rewrite map_app. eauto.
  - exists []. rewrite authenticate_accounts. now rewrite app_nil_r.
Qed.

Lemma fold_handle_appends (requests : list AuthTrace.request) :
  forall db,
  exists extra,
    Store.accounts (fold_left AuthTrace.handle requests db) =
    (Store.accounts db ++ extra)%list.
Proof.
  induction requests as [| r rest IH]; intros db; simpl.
  - exists []. now rewrite app_nil_r.
  - destruct (IH (AuthTrace.handle db r)) as [extra2 ->].
    destruct (handle_appends db r) as [extra1 ->].
    exists (extra1 ++ extra2)%list. now rewrite app_assoc.
Qed.

(** X24. No request edits or removes an account: whatever registrations and
    logins come later, the accounts a store holds, with their ids, names,
    password hashes, emails and creation times, stay as they are, in their
    places, and new accounts are only added behind them. *)
Theorem accounts_are_only_added (before after : list AuthTrace.request) :
  exists added,
    Store.accounts (AuthTrace.run (before ++ after)) =
    (Store.accounts (AuthTrace.run before) ++ added)%list.
Proof.
  unfold AuthTrace.run. rewrite fold_left_app. apply fold_handle_appends.
Qed.

End AppendOnly.
